(** * hyperswitch-cdk: the CodeBuild custom-resource handler

    A shallow embedding of [dependencies/code_builder/start_build.py]:
    the callback reporter [send] and the build supervisor
    [lambda_handler], together with the parts of the Python runtime they
    rely on (strings as code-point sequences, JSON-like values,
    [json.dumps], the UTF-8 encoder, exceptions).

    Interaction with the outside world (boto3, the Lambda context, sleep
    and the urllib3 pool) is modelled by a record of oracles whose answers
    may depend on the whole history of the invocation; every call and its
    answer is appended to a trace, and the properties below are stated on
    that trace.  Writes to stdout ([print]) are not recorded; evaluating
    the argument of a [print] is, where it can raise. *)

From Stdlib Require Import List String Ascii ZArith NArith QArith Lia Bool.
From Stdlib Require Import DecimalString.
From Equations Require Import Equations.
Import ListNotations.

(** ** Python strings *)

Module PyStr.

(** A [str] is a sequence of Unicode code points; [len] counts code
    points, not bytes. *)
Definition codepoint := N.
Definition pystr := list codepoint.

(** A string literal of the source (all of them are ASCII). *)
Definition py (s : string) : pystr :=
  map N_of_ascii (list_ascii_of_string s).

Definition len (s : pystr) : Z := Z.of_nat (List.length s).

(** [str(n)] for an [int]. *)
Definition str_int (z : Z) : pystr :=
  py (NilZero.string_of_int (Z.to_int z)).

Fixpoint str_eqb (a b : pystr) : bool :=
  match a, b with
  | [], [] => true
  | x :: a', y :: b' => N.eqb x y && str_eqb a' b'
  | _, _ => false
  end.

(** [sep.join(parts)] *)
Fixpoint join (sep : pystr) (parts : list pystr) : pystr :=
  match parts with
  | [] => []
  | [p] => p
  | p :: rest => p ++ sep ++ join sep rest
  end.

(** [needle in hay] for strings. *)
Definition contains (needle hay : pystr) : Prop :=
  exists pre post, hay = pre ++ needle ++ post.

Definition is_ascii (c : codepoint) : Prop := (c < 128)%N.
Definition all_ascii (s : pystr) : Prop := Forall is_ascii s.

(** [s.encode('utf-8')]; [None] stands for [UnicodeEncodeError] (lone
    surrogates, values that are no code point). *)
Definition utf8_char (c : codepoint) : option (list N) :=
  (if c <? 128 then Some [c]
   else if c <? 2048 then Some [192 + c / 64; 128 + c mod 64]
   else if (55296 <=? c) && (c <=? 57343) then None
   else if c <? 65536 then
     Some [224 + c / 4096; 128 + (c / 64) mod 64; 128 + c mod 64]
   else if c <? 1114112 then
     Some [240 + c / 262144; 128 + (c / 4096) mod 64;
           128 + (c / 64) mod 64; 128 + c mod 64]
   else None)%N.

Fixpoint utf8_encode (s : pystr) : option (list N) :=
  match s with
  | [] => Some []
  | c :: s' =>
      match utf8_char c, utf8_encode s' with
      | Some bs, Some rest => Some (bs ++ rest)
      | _, _ => None
      end
  end.

(** [s.encode('iso-8859-1')], the encoding [http.client] gives a [str]
    body; [None] stands for [UnicodeEncodeError]. *)
Fixpoint latin1_encode (s : pystr) : option (list N) :=
  match s with
  | [] => Some []
  | c :: s' =>
      match (c <? 256)%N, latin1_encode s' with
      | true, Some rest => Some (c :: rest)
      | _, _ => None
      end
  end.

End PyStr.
Import PyStr.

(** ** Python values *)

Module PyVal.

(** The JSON-like values an event, a payload or a report is made of.  A
    [dict] keeps its insertion order, which [json.dumps] follows. *)
#[warnings="-register-all"]
Inductive pyval : Type :=
| PNone
| PBool (b : bool)
| PInt (z : Z)
| PStr (s : pystr)
| PList (l : list pyval)
| PDict (items : list (pystr * pyval)).

Definition dict := list (pystr * pyval).

Fixpoint dict_get (d : dict) (k : pystr) : option pyval :=
  match d with
  | [] => None
  | (k', v) :: d' => if str_eqb k' k then Some v else dict_get d' k
  end.

(** Truth value of an object, as [or] tests it. *)
Definition truthy (v : pyval) : bool :=
  match v with
  | PNone => false
  | PBool b => b
  | PInt z => negb (Z.eqb z 0)
  | PStr s => negb (Nat.eqb (List.length s) 0)
  | PList l => negb (Nat.eqb (List.length l) 0)
  | PDict d => negb (Nat.eqb (List.length d) 0)
  end.

(** [a or b] *)
Definition py_or (a b : pyval) : pyval := if truthy a then a else b.

(** [v == 'literal'] : only a [str] with the same code points is equal
    to a [str]. *)
Definition eq_str (v : pyval) (s : pystr) : bool :=
  match v with
  | PStr s' => str_eqb s' s
  | _ => false
  end.

End PyVal.
Import PyVal.

(** ** [json.dumps] with its default arguments *)

Module Json.

(** Lower-case hexadecimal digit. *)
Definition hex_digit (d : N) : codepoint :=
  (if d <? 10 then 48 + d else 87 + d)%N.

(** ['\\u{0:04x}'.format(n)] *)
Definition u_escape (n : N) : pystr :=
  (py "\u" ++ [hex_digit ((n / 4096) mod 16); hex_digit ((n / 256) mod 16);
               hex_digit ((n / 16) mod 16); hex_digit (n mod 16)])%N.

(** One character of [encode_basestring_ascii] ([ensure_ascii=True]):
    backslash, quote and the short escapes, printable ASCII kept,
    everything else as [\uXXXX] (a surrogate pair above the BMP). *)
Definition escape_char (c : codepoint) : pystr :=
  (if c =? 92 then [92; 92]
   else if c =? 34 then [92; 34]
   else if c =? 8 then py "\b"
   else if c =? 12 then py "\f"
   else if c =? 10 then py "\n"
   else if c =? 13 then py "\r"
   else if c =? 9 then py "\t"
   else if (32 <=? c) && (c <=? 126) then [c]
   else if c <? 65536 then u_escape c
   else
     let n := c - 65536 in
     u_escape (N.lor 55296 (N.land (N.shiftr n 10) 1023))
       ++ u_escape (N.lor 56320 (N.land n 1023)))%N.

Definition encode_basestring_ascii (s : pystr) : pystr :=
  [34%N] ++ flat_map escape_char s ++ [34%N].

Fixpoint json_dumps (v : pyval) : pystr :=
  match v with
  | PNone => py "null"
  | PBool true => py "true"
  | PBool false => py "false"
  | PInt z => str_int z
  | PStr s => encode_basestring_ascii s
  | PList l => py "[" ++ join (py ", ") (map json_dumps l) ++ py "]"
  | PDict items =>
      py "{"
        ++ join (py ", ")
             (map (fun kv => encode_basestring_ascii (fst kv) ++ py ": "
                               ++ json_dumps (snd kv)) items)
        ++ py "}"
  end.

End Json.
Import Json.

(** ** Exceptions and the effect monad *)

Module Effects.

(** An exception is kept as its class name and the text [str(e)] gives. *)
Record exn : Type := Exception { exn_class : string; exn_text : pystr }.

Definition str_exn (e : exn) : pystr := exn_text e.

(** [d[k]] on a missing key: [str(KeyError(k))] is [repr(k)]; the keys of
    the source are plain identifiers, whose [repr] is the key in single
    quotes. *)
Definition KeyError (k : pystr) : exn :=
  Exception "KeyError" (py "'" ++ k ++ py "'").

Definition IndexError : exn :=
  Exception "IndexError" (py "list index out of range").

Inductive result (A : Type) : Type :=
| Ok (a : A)
| Raise (e : exn).
Arguments Ok {A} a.
Arguments Raise {A} e.

(** The answers of the build service. *)
Record Build : Type := { id : pystr; buildStatus : pystr }.
Record StartBuildOutput : Type := { build : Build }.
Record BatchGetBuildsOutput : Type := { builds : list Build }.

(** What [http.request(method, url, headers=..., body=...)] is given. *)
Record Request : Type :=
  { method : pystr; url : pyval; headers : list (pystr * pystr);
    body : pystr }.

(** One interaction with the outside world, with its answer. *)
Inductive io : Type :=
| IoClient (service : pystr) (r : result unit)
| IoStartBuild (projectName : pystr) (r : result StartBuildOutput)
| IoRemaining (r : result Z)
| IoBatchGetBuilds (ids : list pystr) (r : result BatchGetBuildsOutput)
| IoSleep (secs : Z)
| IoRequest (req : Request) (r : result Z).

Definition trace := list io.

(** The environment of an invocation.  Each oracle sees the history so
    far, so an answer may depend on everything that happened before. *)
Record World : Type :=
  { environ : pystr -> option pystr;
    boto3_client : trace -> pystr -> result unit;
    start_build : trace -> pystr -> result StartBuildOutput;
    batch_get_builds : trace -> list pystr -> result BatchGetBuildsOutput;
    http_request : trace -> Request -> result Z }.

(** The Lambda context object. *)
Record Context : Type :=
  { log_stream_name : pystr;
    get_remaining_time_in_millis : trace -> result Z }.

(** A computation reads and extends the trace and returns or raises. *)
Definition M (A : Type) : Type := trace -> result A * trace.

Definition ret {A} (a : A) : M A := fun t => (Ok a, t).

Definition raise {A} (e : exn) : M A := fun t => (Raise e, t).

Definition bind {A B} (m : M A) (k : A -> M B) : M B :=
  fun t =>
    match m t with
    | (Ok a, t') => k a t'
    | (Raise e, t') => (Raise e, t')
    end.

(** [try: m  except Exception as e: h e] *)
Definition try_except {A} (m : M A) (h : exn -> M A) : M A :=
  fun t =>
    match m t with
    | (Ok a, t') => (Ok a, t')
    | (Raise e, t') => h e t'
    end.

(** An external call: ask the oracle, log the call with its answer. *)
Definition call {A} (oracle : trace -> result A) (log : result A -> io)
  : M A :=
  fun t => let r := oracle t in (r, t ++ [log r]).

(** [time.sleep(secs)] *)
Definition time_sleep (secs : Z) : M unit :=
  fun t => (Ok tt, t ++ [IoSleep secs]).

(** [d[k]] *)
Definition getitem (d : dict) (k : pystr) : M pyval :=
  match dict_get d k with
  | Some v => ret v
  | None => raise (KeyError k)
  end.

(** [l[0]] on a list of builds *)
Definition first_build (l : list Build) : M Build :=
  match l with
  | b :: _ => ret b
  | [] => raise IndexError
  end.

End Effects.
Import Effects.

Declare Scope py_scope.
Delimit Scope py_scope with py.
Notation "x <- m ;; k" := (bind m (fun x => k))
  (at level 61, m at next level, right associativity) : py_scope.
Notation "m ;;; k" := (bind m (fun _ => k))
  (at level 61, right associativity) : py_scope.
Open Scope py_scope.

(** ** The source file *)

Module StartBuild.

(** [a / b] on two [int]s and [x < y]: the quotient is taken exactly.
    (Python rounds it to a double; rounding is monotone and 60 is a
    double, so the test [ms / 1000 < 60] on an integer [ms] of the
    magnitude a Lambda reports gives the same answer.) *)
Definition true_div (a b : Z) : Q := inject_Z a / inject_Z b.
Definition Qlt_bool (x y : Q) : bool := negb (Qle_bool y x).

(** ['"' + s + '"'], to write the literals that hold double quotes. *)
Definition quoted (s : string) : pystr := [34%N] ++ py s ++ [34%N].

(** ['{ "status": <code>, "message": "<message>" }'] *)
Definition payload (code message : string) : pystr :=
  py "{ " ++ quoted "status" ++ py ": " ++ py code ++ py ", "
    ++ quoted "message" ++ py ": " ++ quoted message ++ py " }".

(** [{"message": msg}] *)
Definition message_data (msg : pystr) : pyval :=
  PDict [(py "message", PStr msg)].

Section Handler.

Variable w : World.

(** [os.environ[k]] *)
Definition os_environ (k : pystr) : M pystr :=
  match environ w k with
  | Some v => ret v
  | None => raise (KeyError k)
  end.

(** [send(event, context, responseStatus, responseData,
          physicalResourceId=None, noEcho=False, reason=None)] *)
Definition send (event : dict) (context : Context)
    (responseStatus responseData physicalResourceId noEcho reason : pyval)
  : M pyval :=
  responseUrl <- getitem event (py "ResponseURL") ;;
  let Reason :=
    py_or reason
      (PStr (py "See the details in CloudWatch Log Stream: "
               ++ log_stream_name context)) in
  let PhysicalResourceId :=
    py_or physicalResourceId (PStr (log_stream_name context)) in
  StackId <- getitem event (py "StackId") ;;
  RequestId <- getitem event (py "RequestId") ;;
  LogicalResourceId <- getitem event (py "LogicalResourceId") ;;
  let responseBody : dict :=
    [ (py "Status", responseStatus);
      (py "Reason", Reason);
      (py "PhysicalResourceId", PhysicalResourceId);
      (py "StackId", StackId);
      (py "RequestId", RequestId);
      (py "LogicalResourceId", LogicalResourceId);
      (py "NoEcho", noEcho);
      (py "Data", responseData) ] in
  let json_responseBody := json_dumps (PDict responseBody) in
  let headers :=
    [ (py "content-type", py "");
      (py "content-length", str_int (len json_responseBody)) ] in
  try_except
    (let req := {| method := py "PUT"; url := responseUrl;
                   headers := headers; body := json_responseBody |} in
     response <- call (fun t => http_request w t req) (IoRequest req) ;;
     ret (PDict responseBody))
    (fun e => ret (PDict [])).

(** [send(event, context, status, data)], the three defaults taken. *)
Definition send4 (event : dict) (context : Context)
    (responseStatus : string) (responseData : pyval) : M pyval :=
  send event context (PStr (py responseStatus)) responseData
       PNone (PBool false) PNone.

Definition max_wait_time : Z := 900.
Definition wait_interval : Z := 30.

Definition msg_timeout_approaching (build_id : pystr) : pystr :=
  py "Lambda timeout approaching. Build " ++ build_id
    ++ py " still running. Please check CodeBuild console.".

Definition msg_succeeded (build_id : pystr) : pystr :=
  py "CodeBuild project completed successfully. Build ID: " ++ build_id.

Definition msg_build_failed (status build_id : pystr) : pystr :=
  py "CodeBuild " ++ status ++ py ". Build ID: " ++ build_id
    ++ py ". Check CloudWatch logs.".

Definition msg_not_completed (build_id : pystr) : pystr :=
  py "CodeBuild did not complete within " ++ str_int max_wait_time
    ++ py "s. Build ID: " ++ build_id.

Definition terminal_failures : list pystr :=
  [py "FAILED"; py "FAULT"; py "STOPPED"; py "TIMED_OUT"].

(** [status in [...]] *)
Definition str_in (s : pystr) (l : list pystr) : bool :=
  existsb (str_eqb s) l.

(** What is left of the wait budget: the loop's variant. *)
Definition budget_left (elapsed_time : Z) : nat :=
  Z.to_nat (max_wait_time - elapsed_time).
Arguments budget_left : simpl never.

(** The [while elapsed_time < max_wait_time] loop of [lambda_handler]
    together with the code that follows it; every path of both ends in a
    [return] (or raises). *)
Equations? poll (event : dict) (context : Context) (build_id : pystr)
    (elapsed_time : Z) : M pystr
    by wf (budget_left elapsed_time) lt :=
poll event context build_id elapsed_time
  with Z_lt_dec elapsed_time max_wait_time => {
  | left _ :=
      ms <- call (get_remaining_time_in_millis context) IoRemaining ;;
      let remaining_time := true_div ms 1000 in
      if Qlt_bool remaining_time 60 then
        send4 event context "FAILED"
              (message_data (msg_timeout_approaching build_id)) ;;;
        ret (payload "500" "timeout")
      else
        build_status <-
          call (fun t => batch_get_builds w t [build_id])
               (IoBatchGetBuilds [build_id]) ;;
        b <- first_build (builds build_status) ;;
        let status := buildStatus b in
        if str_eqb status (py "SUCCEEDED") then
          send4 event context "SUCCESS"
                (message_data (msg_succeeded build_id)) ;;;
          ret (payload "200" "success")
        else if str_in status terminal_failures then
          let error_msg := msg_build_failed status build_id in
          send4 event context "FAILED" (message_data error_msg) ;;;
          ret (payload "500" "build_failed")
        else
          time_sleep wait_interval ;;;
          poll event context build_id (elapsed_time + wait_interval)
  | right _ :=
      send4 event context "FAILED"
            (message_data (msg_not_completed build_id)) ;;;
      ret (payload "500" "timeout") }.
Proof. unfold budget_left, max_wait_time, wait_interval in *. lia. Qed.

Definition lambda_handler (event : dict) (context : Context) : M pystr :=
  RequestType <- getitem event (py "RequestType") ;;
  if eq_str RequestType (py "Create") then
    try_except
      (call (fun t => boto3_client w t (py "codebuild"))
            (IoClient (py "codebuild")) ;;;
       _ <- os_environ (py "PROJECT_NAME") ;;
       projectName <- os_environ (py "PROJECT_NAME") ;;
       response <- call (fun t => start_build w t projectName)
                        (IoStartBuild projectName) ;;
       let build_id := id (build response) in
       poll event context build_id 0)
      (fun e =>
         let error_msg := py "Error: " ++ str_exn e in
         send4 event context "FAILED" (message_data error_msg) ;;;
         ret (payload "500" "error"))
  else
    send4 event context "SUCCESS"
          (message_data (py "No action required")) ;;;
    ret (payload "200" "success").

End Handler.

End StartBuild.
Import StartBuild.

(** ** Runs of the handler: the vocabulary of the properties *)

Module Runs.

(** The fields [send] reads from the event, and those the handler needs. *)
Definition callback_fields : list pystr :=
  [py "ResponseURL"; py "StackId"; py "RequestId"; py "LogicalResourceId"].

Definition required_fields : list pystr :=
  py "RequestType" :: callback_fields.

Definition has_fields (fields : list pystr) (event : dict) : bool :=
  forallb (fun k => match dict_get event k with
                    | Some _ => true
                    | None => false
                    end) fields.

(** The value of a field that is present. *)
Definition field (event : dict) (k : string) : pyval :=
  match dict_get event (py k) with
  | Some v => v
  | None => PNone
  end.

Definition default_reason (context : Context) : pyval :=
  PStr (py "See the details in CloudWatch Log Stream: "
          ++ log_stream_name context).

(** The report [send] builds. *)
Definition report (event : dict) (context : Context)
    (responseStatus responseData physicalResourceId noEcho reason : pyval)
  : dict :=
  [ (py "Status", responseStatus);
    (py "Reason", py_or reason (default_reason context));
    (py "PhysicalResourceId",
      py_or physicalResourceId (PStr (log_stream_name context)));
    (py "StackId", field event "StackId");
    (py "RequestId", field event "RequestId");
    (py "LogicalResourceId", field event "LogicalResourceId");
    (py "NoEcho", noEcho);
    (py "Data", responseData) ].

(** A text of the source that holds double quotes, written here with an
    apostrophe in place of each double quote (none of these texts holds
    an apostrophe of its own). *)
Definition text (s : string) : pystr :=
  map (fun c => if (c =? 39)%N then 34%N else c) (py s).

(** The report of a call [send(event, context, status, {"message": msg})],
    the three optional arguments left out. *)
Definition message_report (event : dict) (context : Context)
    (status : string) (msg : pystr) : dict :=
  report event context (PStr (py status))
         (PDict [(py "message", PStr msg)]) PNone (PBool false) PNone.

(** The request that carries a report. *)
Definition put_request (event : dict) (rep : dict) : Request :=
  {| method := py "PUT";
     url := field event "ResponseURL";
     headers :=
       [ (py "content-type", py "");
         (py "content-length", str_int (len (json_dumps (PDict rep)))) ];
     body := json_dumps (PDict rep) |}.

(** The callback of the handler: a status and a message, defaults taken. *)
Definition callback (event : dict) (context : Context)
    (status : string) (msg : pystr) : Request :=
  put_request event
    (report event context (PStr (py status)) (message_data msg)
            PNone (PBool false) PNone).

(** The ways an invocation ends. *)
Inductive exit_path : Type :=
| NonCreate
| BuildSucceeded (build_id : pystr)
| BuildFailed (build_id status : pystr)
| TimeoutImminent (build_id : pystr)
| BudgetExhausted (build_id : pystr)
| Caught (e : exn).

Definition callback_status (p : exit_path) : string :=
  match p with
  | NonCreate | BuildSucceeded _ => "SUCCESS"
  | _ => "FAILED"
  end.

Definition callback_message (p : exit_path) : pystr :=
  match p with
  | NonCreate => py "No action required"
  | BuildSucceeded build_id => msg_succeeded build_id
  | BuildFailed build_id status => msg_build_failed status build_id
  | TimeoutImminent build_id => msg_timeout_approaching build_id
  | BudgetExhausted build_id => msg_not_completed build_id
  | Caught e => py "Error: " ++ str_exn e
  end.

Definition payload_of (p : exit_path) : pystr :=
  match p with
  | NonCreate | BuildSucceeded _ => payload "200" "success"
  | BuildFailed _ _ => payload "500" "build_failed"
  | TimeoutImminent _ | BudgetExhausted _ => payload "500" "timeout"
  | Caught _ => payload "500" "error"
  end.

Definition callback_of (event : dict) (context : Context) (p : exit_path)
  : Request :=
  callback event context (callback_status p) (callback_message p).

(** The trace [t] followed by the delivery of the callback of [p]. *)
Definition delivered (w : World) (event : dict) (context : Context)
    (t : trace) (p : exit_path) : trace :=
  t ++ [IoRequest (callback_of event context p)
                  (http_request w t (callback_of event context p))].

Definition is_request (e : io) : bool :=
  match e with IoRequest _ _ => true | _ => false end.

Definition is_status_query (e : io) : bool :=
  match e with IoBatchGetBuilds _ _ => true | _ => false end.

Definition is_start_build (e : io) : bool :=
  match e with IoStartBuild _ _ => true | _ => false end.

Definition is_remaining_check (e : io) : bool :=
  match e with IoRemaining _ => true | _ => false end.

Definition count (f : io -> bool) (t : trace) : nat :=
  List.length (filter f t).

(** A status the loop keeps waiting on. *)
Definition in_progress (status : pystr) : Prop :=
  str_eqb status (py "SUCCEEDED") = false
  /\ str_in status terminal_failures = false.

(** What the poll loop does from [elapsed_time] on, up to (and without)
    the callback: the events, and the way it ends. *)
Inductive poll_trace (build_id : pystr) : Z -> trace -> exit_path -> Prop :=
| poll_budget elapsed_time :
    (max_wait_time <= elapsed_time)%Z ->
    poll_trace build_id elapsed_time [] (BudgetExhausted build_id)
| poll_remaining_raises elapsed_time e :
    (elapsed_time < max_wait_time)%Z ->
    poll_trace build_id elapsed_time [IoRemaining (Raise e)] (Caught e)
| poll_imminent elapsed_time ms :
    (elapsed_time < max_wait_time)%Z ->
    (ms < 60000)%Z ->
    poll_trace build_id elapsed_time [IoRemaining (Ok ms)]
               (TimeoutImminent build_id)
| poll_query_raises elapsed_time ms e :
    (elapsed_time < max_wait_time)%Z ->
    (60000 <= ms)%Z ->
    poll_trace build_id elapsed_time
               [IoRemaining (Ok ms); IoBatchGetBuilds [build_id] (Raise e)]
               (Caught e)
| poll_no_build elapsed_time ms out :
    (elapsed_time < max_wait_time)%Z ->
    (60000 <= ms)%Z ->
    builds out = [] ->
    poll_trace build_id elapsed_time
               [IoRemaining (Ok ms); IoBatchGetBuilds [build_id] (Ok out)]
               (Caught IndexError)
| poll_succeeded elapsed_time ms out b rest :
    (elapsed_time < max_wait_time)%Z ->
    (60000 <= ms)%Z ->
    builds out = b :: rest ->
    buildStatus b = py "SUCCEEDED" ->
    poll_trace build_id elapsed_time
               [IoRemaining (Ok ms); IoBatchGetBuilds [build_id] (Ok out)]
               (BuildSucceeded build_id)
| poll_failed elapsed_time ms out b rest :
    (elapsed_time < max_wait_time)%Z ->
    (60000 <= ms)%Z ->
    builds out = b :: rest ->
    In (buildStatus b) terminal_failures ->
    poll_trace build_id elapsed_time
               [IoRemaining (Ok ms); IoBatchGetBuilds [build_id] (Ok out)]
               (BuildFailed build_id (buildStatus b))
| poll_again elapsed_time ms out b rest tr p :
    (elapsed_time < max_wait_time)%Z ->
    (60000 <= ms)%Z ->
    builds out = b :: rest ->
    in_progress (buildStatus b) ->
    poll_trace build_id (elapsed_time + wait_interval) tr p ->
    poll_trace build_id elapsed_time
               (IoRemaining (Ok ms) :: IoBatchGetBuilds [build_id] (Ok out)
                  :: IoSleep wait_interval :: tr)
               p.

(** What an invocation does up to (and without) the callback. *)
Inductive handler_trace (w : World) (event : dict)
  : trace -> exit_path -> Prop :=
| run_non_create :
    eq_str (field event "RequestType") (py "Create") = false ->
    handler_trace w event [] NonCreate
| run_client_raises e :
    eq_str (field event "RequestType") (py "Create") = true ->
    handler_trace w event [IoClient (py "codebuild") (Raise e)] (Caught e)
| run_no_project :
    eq_str (field event "RequestType") (py "Create") = true ->
    environ w (py "PROJECT_NAME") = None ->
    handler_trace w event [IoClient (py "codebuild") (Ok tt)]
                  (Caught (KeyError (py "PROJECT_NAME")))
| run_start_raises name e :
    eq_str (field event "RequestType") (py "Create") = true ->
    environ w (py "PROJECT_NAME") = Some name ->
    handler_trace w event
                  [IoClient (py "codebuild") (Ok tt);
                   IoStartBuild name (Raise e)]
                  (Caught e)
| run_started name response tr p :
    eq_str (field event "RequestType") (py "Create") = true ->
    environ w (py "PROJECT_NAME") = Some name ->
    poll_trace (id (build response)) 0 tr p ->
    handler_trace w event
                  (IoClient (py "codebuild") (Ok tt)
                     :: IoStartBuild name (Ok response) :: tr)
                  p.

(** The exception an external call of the [try] block answered with.
    (The answer of the PUT is dealt with inside [send].) *)
Definition raised (x : io) : option exn :=
  match x with
  | IoClient _ (Raise e) => Some e
  | IoStartBuild _ (Raise e) => Some e
  | IoRemaining (Raise e) => Some e
  | IoBatchGetBuilds _ (Raise e) => Some e
  | _ => None
  end.

(** The report carries the correlation identifiers of the event. *)
Definition echoes (event rep : dict) : Prop :=
  dict_get rep (py "StackId") = dict_get event (py "StackId")
  /\ dict_get rep (py "RequestId") = dict_get event (py "RequestId")
  /\ dict_get rep (py "LogicalResourceId")
     = dict_get event (py "LogicalResourceId").

(** The run reports the exception [e]: the one callback is FAILED with
    the text of [e] in its message, and the error payload is returned. *)
Definition reported_as_error (event : dict) (context : Context)
    (run : result pystr * trace) (e : exn) : Prop :=
  let msg := py "Error: " ++ exn_text e in
  let rep := message_report event context "FAILED" msg in
  fst run = Ok (text "{ 'status': 500, 'message': 'error' }")
  /\ (exists pre r, snd run = pre ++ [IoRequest (put_request event rep) r])
  /\ dict_get rep (py "Status") = Some (PStr (py "FAILED"))
  /\ dict_get rep (py "Data") = Some (PDict [(py "message", PStr msg)])
  /\ contains (exn_text e) msg
  /\ count is_request (snd run) = 1%nat.

End Runs.
Import Runs.

(** ** Concrete events and worlds *)

Module Samples.

Definition sample_event (request_type : string) : dict :=
  [ (py "RequestType", PStr (py request_type));
    (py "ResponseURL", PStr (py "https://cfn.example/callback"));
    (py "StackId", PStr (py "stack-1"));
    (py "RequestId", PStr (py "req-1"));
    (py "LogicalResourceId", PStr (py "MirrorImages")) ].

(** A context that reports the same remaining time at every check. *)
Definition sample_context (ms : Z) : Context :=
  {| log_stream_name := py "2026/stream";
     get_remaining_time_in_millis := fun _ => Ok ms |}.

Definition sample_build (status : string) : Build :=
  {| id := py "mirror:b1"; buildStatus := py status |}.

Definition started_output : StartBuildOutput :=
  {| build := sample_build "IN_PROGRESS" |}.

Definition started : result StartBuildOutput := Ok started_output.

(** A world whose k-th status query answers with the k-th status of the
    script (and [IN_PROGRESS] after its end). *)
Definition sample_world (start : result StartBuildOutput)
    (script : list string) (http : result Z) : World :=
  {| environ := fun k =>
       if str_eqb k (py "PROJECT_NAME") then Some (py "mirror") else None;
     boto3_client := fun _ _ => Ok tt;
     start_build := fun _ _ => start;
     batch_get_builds := fun t _ =>
       Ok {| builds :=
               [sample_build (nth (count is_status_query t) script
                                  "IN_PROGRESS"%string)] |};
     http_request := fun _ _ => http |}.

(** The same world with a build that starts and a callback endpoint that
    answers 200. *)
Definition healthy (script : list string) : World :=
  sample_world started script (Ok 200%Z).

(** A world whose callback endpoint answers 500. *)
Definition rejecting : World := sample_world started [] (Ok 500%Z).

(** A world whose callback endpoint cannot be reached. *)
Definition unreachable : World :=
  sample_world started []
    (Raise (Exception "MaxRetryError" (py "Max retries exceeded"))).

Definition sample_data : pyval := message_data (py "done").

Definition sample_report : dict :=
  report (sample_event "Create") (sample_context 840000)
         (PStr (py "FAILED")) sample_data PNone (PBool false) PNone.

Definition boom : exn := Exception "ClientError" (py "AccessDenied").

End Samples.
Import Samples.

(** ** Further vocabulary: what the handler does beyond the callback *)

Module Coverage.

Definition is_sleep (e : io) : bool :=
  match e with IoSleep _ => true | _ => false end.

(** The first of [fields], in their order, that [event] lacks. *)
Definition first_missing (fields : list pystr) (event : dict)
  : option pystr :=
  find (fun k => match dict_get event k with
                 | Some _ => false
                 | None => true
                 end) fields.

(** Two worlds that differ at most in what the callback endpoint
    answers. *)
Definition same_services (w w' : World) : Prop :=
  (forall k, environ w k = environ w' k)
  /\ (forall t s, boto3_client w t s = boto3_client w' t s)
  /\ (forall t n, start_build w t n = start_build w' t n)
  /\ (forall t ids, batch_get_builds w t ids = batch_get_builds w' t ids).

(** Printable ASCII: from the space to the tilde. *)
Definition printable (c : codepoint) : bool :=
  ((32 <=? c) && (c <=? 126))%N.

Definition all_printable (s : pystr) : bool := forallb printable s.

(** The report of a callback of the handler: the three defaults taken. *)
Definition handler_report (event : dict) (context : Context)
    (status : string) (msg : pystr) : dict :=
  report event context (PStr (py status)) (message_data msg)
         PNone (PBool false) PNone.

(** A world whose status queries all find the build in [status], in a
    context that keeps reporting 840 seconds. *)
Definition stuck_in (status : string) : World :=
  sample_world started (repeat status 40) (Ok 200%Z).

(** An event whose StackId holds a line feed, an accented letter and a
    character outside the basic plane. *)
Definition unicode_event : dict :=
  [ (py "RequestType", PStr (py "Delete"));
    (py "ResponseURL", PStr (py "https://cfn.example/callback"));
    (py "StackId", PStr [10; 233; 128512]%N);
    (py "RequestId", PStr (py "req-1"));
    (py "LogicalResourceId", PStr (py "MirrorImages")) ].

(** An event without its ResponseURL. *)
Definition no_url_event (request_type : string) : dict :=
  [ (py "RequestType", PStr (py request_type));
    (py "StackId", PStr (py "stack-1"));
    (py "RequestId", PStr (py "req-1"));
    (py "LogicalResourceId", PStr (py "MirrorImages")) ].

End Coverage.
Import Coverage.

(** ** Basic facts *)

Lemma str_eqb_eq (a b : pystr) : str_eqb a b = true <-> a = b.
Proof.
  revert b; induction a as [|x a IH]; intros [|y b]; simpl; split;
    try congruence; try discriminate.
  - intros H. apply andb_prop in H as [Hx Hab].
    apply N.eqb_eq in Hx. apply IH in Hab. congruence.
  - intros H. injection H as -> ->. rewrite N.eqb_refl. simpl.
    now apply IH.
Qed.

Lemma str_eqb_refl (a : pystr) : str_eqb a a = true.
Proof. now apply str_eqb_eq. Qed.

Lemma str_eqb_neq (a b : pystr) : str_eqb a b = false <-> a <> b.
Proof.
  split.
  - intros H E. apply str_eqb_eq in E. congruence.
  - intros H. destruct (str_eqb a b) eqn:E; [|reflexivity].
    apply str_eqb_eq in E. contradiction.
Qed.

Lemma str_in_In (s : pystr) (l : list pystr) :
  str_in s l = true <-> In s l.
Proof.
  unfold str_in. rewrite existsb_exists. split.
  - intros (x & Hx & E). apply str_eqb_eq in E. now subst.
  - intros H. exists s. split; [assumption | apply str_eqb_refl].
Qed.

(** The test [remaining_time < 60] is the test [ms < 60000]. *)
Lemma below_threshold_iff (ms : Z) :
  Qlt_bool (true_div ms 1000) 60 = true <-> (ms < 60000)%Z.
Proof.
  unfold Qlt_bool, true_div. rewrite negb_true_iff.
  destruct (Qle_bool 60 (inject_Z ms / inject_Z 1000)) eqn:E.
  - apply Qle_bool_iff in E. unfold Qle, Qdiv, Qmult, Qinv, inject_Z in E.
    simpl in E. split; [discriminate | lia].
  - split; [intros _ | reflexivity].
    destruct (Z_lt_dec ms 60000) as [H|H]; [assumption | exfalso].
    assert (Qle_bool 60 (inject_Z ms / inject_Z 1000) = true) as E'.
    { apply Qle_bool_iff. unfold Qle, Qdiv, Qmult, Qinv, inject_Z.
      simpl. lia. }
    congruence.
Qed.

Lemma above_threshold_iff (ms : Z) :
  Qlt_bool (true_div ms 1000) 60 = false <-> (60000 <= ms)%Z.
Proof.
  destruct (Qlt_bool (true_div ms 1000) 60) eqn:E.
  - apply below_threshold_iff in E. split; [discriminate | lia].
  - split; [intros _ | reflexivity].
    destruct (Z_lt_dec ms 60000) as [H|H]; [|lia].
    apply below_threshold_iff in H. congruence.
Qed.

Lemma has_fields_get (fields : list pystr) (event : dict) (k : pystr) :
  has_fields fields event = true -> In k fields ->
  exists v, dict_get event k = Some v.
Proof.
  unfold has_fields. rewrite forallb_forall. intros H Hk.
  specialize (H k Hk). destruct (dict_get event k) as [v|];
    [now exists v | discriminate].
Qed.

Lemma getitem_field (event : dict) (k : string) (fields : list pystr)
    (t : trace) :
  has_fields fields event = true -> In (py k) fields ->
  getitem event (py k) t = (Ok (field event k), t).
Proof.
  intros H Hk. destruct (has_fields_get _ _ _ H Hk) as [v Hv].
  unfold getitem, field. now rewrite Hv.
Qed.

Lemma required_callback_fields (event : dict) :
  has_fields required_fields event = true ->
  has_fields callback_fields event = true.
Proof.
  unfold required_fields, has_fields. simpl forallb at 1.
  intros H. now apply andb_prop in H as [_ H].
Qed.

(** ** What one call of [send] does *)

Lemma send_run (w : World) (event : dict) (context : Context)
    (st data phys ne reason : pyval) (t : trace) :
  has_fields callback_fields event = true ->
  let rep := report event context st data phys ne reason in
  let req := put_request event rep in
  send w event context st data phys ne reason t =
    (Ok (match http_request w t req with
         | Ok _ => PDict rep
         | Raise _ => PDict []
         end),
     t ++ [IoRequest req (http_request w t req)]).
Proof.
  intros H rep req. unfold send, bind.
  rewrite (getitem_field _ "ResponseURL" _ t H) by (simpl; tauto).
  rewrite (getitem_field _ "StackId" _ t H) by (simpl; tauto).
  rewrite (getitem_field _ "RequestId" _ t H) by (simpl; tauto).
  rewrite (getitem_field _ "LogicalResourceId" _ t H) by (simpl; tauto).
  subst req rep. unfold put_request, report, default_reason.
  unfold try_except, bind, call, ret.
  destruct (http_request w t _); reflexivity.
Qed.

Lemma send4_then (w : World) (event : dict) (context : Context)
    (status : string) (msg : pystr) (A : Type) (x : A) (t : trace) :
  has_fields callback_fields event = true ->
  (send4 w event context status (message_data msg) ;;; ret x) t =
    (Ok x,
     t ++ [IoRequest (callback event context status msg)
                     (http_request w t (callback event context status msg))]).
Proof.
  intros H. unfold bind, send4. rewrite send_run by assumption.
  reflexivity.
Qed.

(** ** The poll loop follows [poll_trace] *)

Lemma terminal_not_succeeded (status : pystr) :
  In status terminal_failures -> str_eqb status (py "SUCCEEDED") = false.
Proof.
  unfold terminal_failures. simpl.
  intros [<-|[<-|[<-|[<-|[]]]]]; reflexivity.
Qed.

Lemma poll_run (w : World) (event : dict) (context : Context)
    (build_id : pystr) (elapsed_time : Z) :
  has_fields callback_fields event = true ->
  forall t, exists tr p,
    poll_trace build_id elapsed_time tr p
    /\ poll w event context build_id elapsed_time t =
         match p with
         | Caught e => (Raise e, t ++ tr)
         | _ => (Ok (payload_of p), delivered w event context (t ++ tr) p)
         end.
Proof.
  revert event context build_id elapsed_time.
  apply (poll_elim w
           (fun event context build_id elapsed_time m =>
              has_fields callback_fields event = true ->
              forall t, exists tr p,
                poll_trace build_id elapsed_time tr p
                /\ m t =
                     match p with
                     | Caught e => (Raise e, t ++ tr)
                     | _ => (Ok (payload_of p),
                             delivered w event context (t ++ tr) p)
                     end)).
  - intros event context build_id elapsed_time l IH _ Hev t.
    unfold bind at 1. unfold call at 1.
    destruct (get_remaining_time_in_millis context t) as [ms|e] eqn:Hrem.
    + cbv zeta.
      destruct (Qlt_bool (true_div ms 1000) 60) eqn:Hlt.
      * apply below_threshold_iff in Hlt.
        exists [IoRemaining (Ok ms)], (TimeoutImminent build_id).
        split; [now constructor|].
        rewrite send4_then by assumption. reflexivity.
      * apply above_threshold_iff in Hlt.
        unfold bind at 1. unfold call at 1.
        destruct (batch_get_builds w _ [build_id]) as [out|e] eqn:Hq.
        -- unfold bind at 1. unfold first_build.
           destruct (builds out) as [|b rest] eqn:Hb.
           ++ exists [IoRemaining (Ok ms);
                      IoBatchGetBuilds [build_id] (Ok out)],
                     (Caught IndexError).
              split; [now constructor|].
              unfold raise. now rewrite <- app_assoc.
           ++ unfold ret at 1.
              destruct (str_eqb (buildStatus b) (py "SUCCEEDED")) eqn:Hs.
              ** apply str_eqb_eq in Hs.
                 exists [IoRemaining (Ok ms);
                         IoBatchGetBuilds [build_id] (Ok out)],
                        (BuildSucceeded build_id).
                 split; [now econstructor; eauto|].
                 rewrite send4_then by assumption.
                 unfold delivered. now rewrite <- !app_assoc.
              ** destruct (str_in (buildStatus b) terminal_failures) eqn:Hf.
                 --- apply str_in_In in Hf.
                     exists [IoRemaining (Ok ms);
                             IoBatchGetBuilds [build_id] (Ok out)],
                            (BuildFailed build_id (buildStatus b)).
                     split; [now econstructor; eauto|].
                     rewrite send4_then by assumption.
                     unfold delivered. now rewrite <- !app_assoc.
                 --- unfold bind at 1. unfold time_sleep at 1.
                     destruct (IH ms out b tt t Hev
                                 (((t ++ [IoRemaining (Ok ms)])
                                    ++ [IoBatchGetBuilds [build_id]
                                                         (Ok out)])
                                    ++ [IoSleep wait_interval]))
                       as (tr & p & Htr & Hp).
                     exists (IoRemaining (Ok ms)
                               :: IoBatchGetBuilds [build_id] (Ok out)
                               :: IoSleep wait_interval :: tr), p.
                     split; [econstructor; eauto; now split|].
                     rewrite Hp. rewrite <- !app_assoc. reflexivity.
        -- exists [IoRemaining (Ok ms);
                   IoBatchGetBuilds [build_id] (Raise e)], (Caught e).
           split; [now constructor|]. now rewrite <- app_assoc.
    + exists [IoRemaining (Raise e)], (Caught e).
      split; [now constructor|]. reflexivity.
  - intros event context build_id elapsed_time n _ Hev t.
    exists [], (BudgetExhausted build_id).
    split; [constructor; lia|].
    rewrite send4_then by assumption. unfold delivered.
    now rewrite app_nil_r.
Qed.

(** ** An invocation follows [handler_trace] and ends with the callback *)

Lemma eq_str_true (v : pyval) (s : pystr) :
  eq_str v s = true <-> v = PStr s.
Proof.
  destruct v; simpl; split; try discriminate; intros H.
  - apply str_eqb_eq in H. now subst.
  - injection H as ->. apply str_eqb_refl.
Qed.

Lemma eq_str_false (v : pyval) (s : pystr) :
  eq_str v s = false <-> v <> PStr s.
Proof.
  split.
  - intros H E. apply eq_str_true in E. congruence.
  - intros H. destruct (eq_str v s) eqn:E; [|reflexivity].
    apply eq_str_true in E. contradiction.
Qed.

Lemma handler_run (w : World) (event : dict) (context : Context) :
  has_fields required_fields event = true ->
  exists tr p,
    handler_trace w event tr p
    /\ lambda_handler w event context [] =
         (Ok (payload_of p), delivered w event context tr p).
Proof.
  intros Hreq. pose proof (required_callback_fields _ Hreq) as Hev.
  unfold lambda_handler. unfold bind at 1.
  rewrite (getitem_field _ "RequestType" _ [] Hreq) by (simpl; tauto).
  destruct (eq_str (field event "RequestType") (py "Create")) eqn:Hty.
  - unfold try_except. unfold bind at 1. unfold call at 1.
    destruct (boto3_client w [] (py "codebuild")) as [[]|e] eqn:Hc.
    + unfold bind at 1. unfold os_environ.
      destruct (environ w (py "PROJECT_NAME")) as [name|] eqn:Henv.
      * unfold ret at 1. unfold bind at 1. unfold ret at 1.
        unfold bind at 1. unfold call at 1.
        destruct (start_build w _ name) as [response|e] eqn:Hs.
        -- cbv zeta.
           destruct (poll_run w event context (id (build response)) 0 Hev
                       (([] ++ [IoClient (py "codebuild") (Ok tt)])
                          ++ [IoStartBuild name (Ok response)]))
             as (tr & p & Htr & Hp).
           rewrite Hp.
           exists (IoClient (py "codebuild") (Ok tt)
                     :: IoStartBuild name (Ok response) :: tr), p.
           split; [now constructor|].
           destruct p; try reflexivity.
           rewrite send4_then by assumption. reflexivity.
        -- exists [IoClient (py "codebuild") (Ok tt);
                   IoStartBuild name (Raise e)], (Caught e).
           split; [now constructor|].
           rewrite send4_then by assumption. reflexivity.
      * unfold raise at 1.
        exists [IoClient (py "codebuild") (Ok tt)],
               (Caught (KeyError (py "PROJECT_NAME"))).
        split; [now constructor|].
        rewrite send4_then by assumption. reflexivity.
    + exists [IoClient (py "codebuild") (Raise e)], (Caught e).
      split; [now constructor|].
      rewrite send4_then by assumption. reflexivity.
  - exists [], NonCreate. split; [now constructor|].
    rewrite send4_then by assumption. reflexivity.
Qed.

(** ** Counting events *)

Lemma count_app (f : io -> bool) (a b : trace) :
  count f (a ++ b) = (count f a + count f b)%nat.
Proof. unfold count. now rewrite filter_app, length_app. Qed.

Lemma poll_trace_counts (build_id : pystr) (elapsed_time : Z) (tr : trace)
    (p : exit_path) :
  poll_trace build_id elapsed_time tr p ->
  count is_request tr = 0%nat /\ count is_start_build tr = 0%nat.
Proof.
  induction 1; try (split; reflexivity).
  destruct IHpoll_trace as [IH1 IH2]. split; assumption.
Qed.

Lemma handler_trace_requests (w : World) (event : dict) (tr : trace)
    (p : exit_path) :
  handler_trace w event tr p -> count is_request tr = 0%nat.
Proof.
  destruct 1; try reflexivity.
  match goal with H : poll_trace _ _ _ _ |- _ =>
    apply poll_trace_counts in H as [H _] end.
  assumption.
Qed.

Lemma delivered_requests (w : World) (event : dict) (context : Context)
    (tr : trace) (p : exit_path) :
  handler_trace w event tr p ->
  count is_request (delivered w event context tr p) = 1%nat.
Proof.
  intros H. unfold delivered. rewrite count_app.
  rewrite (handler_trace_requests _ _ _ _ H). reflexivity.
Qed.

(** C1: an invocation on an event that holds the required fields sends
    exactly one callback, whatever the world answers and whichever way
    the handler ends (non-create, build success, build terminal failure,
    imminent timeout, exhausted budget, caught exception): the callback
    of that way out is the last event of the run, and the handler
    returns after it. *)
Theorem exactly_one_callback (w : World) (event : dict) (context : Context) :
  has_fields required_fields event = true ->
  let run := lambda_handler w event context [] in
  count is_request (snd run) = 1%nat
  /\ exists p pre r,
       fst run = Ok (payload_of p)
       /\ snd run = pre ++ [IoRequest (callback_of event context p) r].
Proof.
  intros H run. subst run.
  destruct (handler_run w event context H) as (tr & p & Htr & Hp).
  rewrite Hp. simpl snd. split; [now apply delivered_requests|].
  exists p, tr, (http_request w tr (callback_of event context p)).
  split; reflexivity.
Qed.

(** ** Where an event can stand in a run *)

Lemma snoc_split (A : Type) (base pre post : list A) (x y : A) :
  base ++ [x] = pre ++ y :: post ->
  (post = [] /\ base = pre /\ x = y)
  \/ exists post', post = post' ++ [x] /\ base = pre ++ y :: post'.
Proof.
  destruct (exists_last (l := y :: post)) as (l' & z & E); [discriminate|].
  intros H. destruct post as [|q post].
  - left. apply app_inj_tail in H as [-> ->]. auto.
  - right. destruct (exists_last (l := q :: post)) as (post' & z' & E');
      [discriminate|].
    rewrite E' in H |- *.
    change (pre ++ y :: post' ++ [z']) with (pre ++ (y :: post') ++ [z']) in H.
    rewrite app_assoc in H. apply app_inj_tail in H as [-> ->].
    exists post'. auto.
Qed.

Ltac trace_cases pre H :=
  destruct pre as [|? [|? [|? pre]]]; simpl in H; inversion H; subst;
  clear H.

Ltac same_build :=
  repeat match goal with
    | Ho : Ok _ = Ok _ |- _ => injection Ho as <-
    | Hb : builds ?o = _ :: _, Hb' : builds ?o = _ :: _ |- _ =>
        rewrite Hb in Hb'; injection Hb' as <- <-
    | Hb : builds ?o = _ :: _, Hb' : builds ?o = [] |- _ => congruence
    end.

Ltac status_clash :=
  match goal with
  | Hs : buildStatus ?b = py "SUCCEEDED",
    Hin : In (buildStatus ?b) terminal_failures |- _ =>
      apply terminal_not_succeeded in Hin; apply str_eqb_eq in Hs;
      congruence
  | Hp : in_progress (buildStatus ?b),
    Hs : buildStatus ?b = py "SUCCEEDED" |- _ =>
      destruct Hp as [Hp _]; apply str_eqb_eq in Hs; congruence
  | Hp : in_progress (buildStatus ?b),
    Hin : In (buildStatus ?b) terminal_failures |- _ =>
      destruct Hp as [_ Hp]; apply str_in_In in Hin; congruence
  end.

(** A remaining-time check that comes out below the threshold ends the
    loop. *)
Lemma poll_trace_low_remaining (build_id : pystr) (elapsed_time : Z)
    (tr : trace) (p : exit_path) :
  poll_trace build_id elapsed_time tr p ->
  forall pre ms post,
    tr = pre ++ IoRemaining (Ok ms) :: post -> (ms < 60000)%Z ->
    post = [] /\ p = TimeoutImminent build_id.
Proof.
  induction 1; intros pre ms' post E Hlow;
    try solve [trace_cases pre E; (lia || auto)].
  destruct pre as [|? [|? [|? pre]]]; simpl in E; inversion E; subst.
  - lia.
  - eapply IHpoll_trace; eauto.
Qed.

(** A status query follows a remaining-time check that came out at or
    above the threshold, asks for the build that was started, and its
    answer decides how the loop goes on. *)
Lemma poll_trace_query (build_id : pystr) (elapsed_time : Z)
    (tr : trace) (p : exit_path) :
  poll_trace build_id elapsed_time tr p ->
  forall pre ids r post,
    tr = pre ++ IoBatchGetBuilds ids r :: post ->
    ids = [build_id]
    /\ (exists pre' ms,
          pre = pre' ++ [IoRemaining (Ok ms)] /\ (60000 <= ms)%Z)
    /\ (forall e, r = Raise e -> post = [] /\ p = Caught e)
    /\ (forall out, r = Ok out -> builds out = [] ->
          post = [] /\ p = Caught IndexError)
    /\ (forall out b rest, r = Ok out -> builds out = b :: rest ->
          buildStatus b = py "SUCCEEDED" ->
          post = [] /\ p = BuildSucceeded build_id)
    /\ (forall out b rest, r = Ok out -> builds out = b :: rest ->
          In (buildStatus b) terminal_failures ->
          post = [] /\ p = BuildFailed build_id (buildStatus b)).
Proof.
  induction 1; intros pre ids r post E;
    try solve [trace_cases pre E];
    try solve [trace_cases pre E;
               (split; [reflexivity|]); (split; [exists [], ms; auto|]);
               repeat split; intros; same_build; try congruence;
               try reflexivity; status_clash].
  destruct pre as [|? [|? [|? pre]]]; simpl in E; inversion E; subst.
  - split; [reflexivity|]. split; [exists [], ms; auto|].
    repeat split; intros; same_build; try congruence; status_clash.
  - destruct (IHpoll_trace pre ids r post eq_refl)
      as (Hids & (pre' & ms' & Hpre & Hms) & Hrest).
    split; [assumption|]. split; [|assumption].
    exists (IoRemaining (Ok ms) :: IoBatchGetBuilds [build_id] (Ok out)
              :: IoSleep wait_interval :: pre'), ms'.
    rewrite Hpre. auto.
Qed.

(** An event of the poll loop stands after the client was made and the
    build was started. *)
Lemma handler_trace_poll_event (w : World) (event : dict) (base : trace)
    (p : exit_path) (pre : trace) (x : io) (post : trace) :
  handler_trace w event base p ->
  base = pre ++ x :: post ->
  is_remaining_check x || is_status_query x = true ->
  exists name response pre2,
    pre = IoClient (py "codebuild") (Ok tt)
            :: IoStartBuild name (Ok response) :: pre2
    /\ poll_trace (id (build response)) 0 (pre2 ++ x :: post) p.
Proof.
  intros Hrun E Hx. destruct Hrun;
    try solve [trace_cases pre E; simpl in Hx; discriminate].
  destruct pre as [|a [|b pre2]]; simpl in E; inversion E; subst;
    try (simpl in Hx; discriminate).
  exists name, response, pre2. auto.
Qed.

(** The shape of every invocation: what [handler_trace] allows, then the
    one callback. *)
Lemma run_shape (w : World) (event : dict) (context : Context) :
  has_fields required_fields event = true ->
  exists base p r,
    handler_trace w event base p
    /\ fst (lambda_handler w event context []) = Ok (payload_of p)
    /\ snd (lambda_handler w event context []) =
         base ++ [IoRequest (callback_of event context p) r].
Proof.
  intros H. destruct (handler_run w event context H) as (tr & p & Htr & Hp).
  exists tr, p, (http_request w tr (callback_of event context p)).
  rewrite Hp. auto.
Qed.

Lemma run_split (base : trace) (c : io) (pre : trace) (x : io)
    (post : trace) :
  base ++ [c] = pre ++ x :: post ->
  is_request c = true -> is_request x = false ->
  exists post', post = post' ++ [c] /\ base = pre ++ x :: post'.
Proof.
  intros E Hc Hx. apply snoc_split in E as [(_ & _ & <-)|E]; [|assumption].
  congruence.
Qed.

Lemma count_zero_or_split (f : io -> bool) (t : trace) :
  count f t = 0%nat
  \/ exists a x b, t = a ++ x :: b /\ f x = true.
Proof.
  induction t as [|y t IH].
  - now left.
  - destruct (f y) eqn:Hy.
    + right. exists [], y, t. auto.
    + destruct IH as [IH|(a & x & b & -> & Hx)].
      * left. unfold count in *. simpl. now rewrite Hy.
      * right. exists (y :: a), x, b. auto.
Qed.

Lemma count_split_pos (f : io -> bool) (a : trace) (x : io) (b : trace) :
  f x = true -> count f (a ++ x :: b) <> 0%nat.
Proof.
  intros Hx. rewrite count_app. unfold count at 2. simpl. rewrite Hx.
  simpl. lia.
Qed.

(** ** Messages *)

Lemma contains_middle (a s b : pystr) : contains s (a ++ s ++ b).
Proof. now exists a, b. Qed.

Lemma contains_end (a s : pystr) : contains s (a ++ s).
Proof. exists a, []. now rewrite app_nil_r. Qed.

Lemma timeout_message_mentions (build_id : pystr) :
  contains (py "timeout") (msg_timeout_approaching build_id)
  /\ contains build_id (msg_timeout_approaching build_id).
Proof.
  split.
  - exists (py "Lambda "),
           (py " approaching. Build " ++ build_id
              ++ py " still running. Please check CodeBuild console.").
    reflexivity.
  - apply contains_middle.
Qed.

Lemma failed_message_mentions (status build_id : pystr) :
  contains status (msg_build_failed status build_id)
  /\ contains build_id (msg_build_failed status build_id).
Proof.
  split.
  - apply contains_middle.
  - exists (py "CodeBuild " ++ status ++ py ". Build ID: "),
           (py ". Check CloudWatch logs.").
    unfold msg_build_failed. now rewrite <- !app_assoc.
Qed.

(** ** The texts of the source, letter by letter *)

Lemma payload_texts :
  payload "200" "success" = text "{ 'status': 200, 'message': 'success' }"
  /\ payload "500" "timeout" = text "{ 'status': 500, 'message': 'timeout' }"
  /\ payload "500" "build_failed"
     = text "{ 'status': 500, 'message': 'build_failed' }"
  /\ payload "500" "error" = text "{ 'status': 500, 'message': 'error' }".
Proof. repeat split; reflexivity. Qed.

Example text_writes_double_quotes :
  text "{ 'status': 200 }"
  = [123; 32; 34; 115; 116; 97; 116; 117; 115; 34; 58; 32; 50; 48; 48; 32;
     125]%N.
Proof. reflexivity. Qed.

Lemma callback_message_report (event : dict) (context : Context)
    (status : string) (msg : pystr) :
  callback event context status msg
  = put_request event (message_report event context status msg).
Proof. reflexivity. Qed.

(** ** The supervisor *)

(** C2: on an event whose RequestType is not "Create" (required fields
    present) the run is a single PUT whose report has Status "SUCCESS" and
    Data [{"message": "No action required"}]; no build is started, no
    status is queried, and the payload '{ "status": 200, "message":
    "success" }' is returned. *)
Theorem non_create_reports_success (w : World) (event : dict)
    (context : Context) :
  has_fields required_fields event = true ->
  field event "RequestType" <> PStr (py "Create") ->
  let rep :=
    report event context (PStr (py "SUCCESS"))
           (PDict [(py "message", PStr (py "No action required"))])
           PNone (PBool false) PNone in
  let run := lambda_handler w event context [] in
  (exists r, run = (Ok (text "{ 'status': 200, 'message': 'success' }"),
                    [IoRequest (put_request event rep) r]))
  /\ dict_get rep (py "Status") = Some (PStr (py "SUCCESS"))
  /\ dict_get rep (py "Data")
     = Some (PDict [(py "message", PStr (py "No action required"))])
  /\ count is_request (snd run) = 1%nat
  /\ count is_start_build (snd run) = 0%nat
  /\ count is_status_query (snd run) = 0%nat.
Proof.
  intros Hreq Hty rep run.
  pose proof (required_callback_fields _ Hreq) as Hev.
  apply eq_str_false in Hty.
  assert (run = (Ok (text "{ 'status': 200, 'message': 'success' }"),
                 [IoRequest (put_request event rep)
                            (http_request w [] (put_request event rep))]))
    as Hrun.
  { subst run. unfold lambda_handler. unfold bind at 1.
    rewrite (getitem_field _ "RequestType" _ [] Hreq) by (simpl; tauto).
    rewrite Hty. rewrite send4_then by assumption. reflexivity. }
  split; [eexists; exact Hrun|].
  rewrite Hrun. repeat split; reflexivity.
Qed.

(** C3: in a run on an event with the required fields, every status query
    comes right after a remaining-time check that found at least 60
    seconds; a check that finds less than 60 seconds is followed by the
    FAILED callback alone, whose message mentions "timeout" and the id of
    the build that was started, the payload '{ "status": 500, "message":
    "timeout" }' is returned, and no status query follows; when that check
    is the first one, the run holds no status query at all. *)
Theorem remaining_time_checked_first (w : World) (event : dict)
    (context : Context) :
  has_fields required_fields event = true ->
  let run := lambda_handler w event context [] in
  (forall pre ids r post,
      snd run = pre ++ IoBatchGetBuilds ids r :: post ->
      exists pre' ms,
        pre = pre' ++ [IoRemaining (Ok ms)] /\ (60000 <= ms)%Z)
  /\ (forall pre ms post,
         snd run = pre ++ IoRemaining (Ok ms) :: post ->
         (ms < 60000)%Z ->
         fst run = Ok (text "{ 'status': 500, 'message': 'timeout' }")
         /\ (exists name response r,
               let msg :=
                 py "Lambda timeout approaching. Build "
                   ++ id (build response)
                   ++ py " still running. Please check CodeBuild console."
               in
               let rep := message_report event context "FAILED" msg in
               In (IoStartBuild name (Ok response)) pre
               /\ post = [IoRequest (put_request event rep) r]
               /\ dict_get rep (py "Status") = Some (PStr (py "FAILED"))
               /\ dict_get rep (py "Data")
                  = Some (PDict [(py "message", PStr msg)])
               /\ contains (py "timeout") msg
               /\ contains (id (build response)) msg)
         /\ count is_request (snd run) = 1%nat
         /\ count is_status_query post = 0%nat
         /\ (count is_remaining_check pre = 0%nat ->
             count is_status_query (snd run) = 0%nat)).
Proof.
  intros Hreq run.
  destruct (run_shape w event context Hreq)
    as (base & p & r0 & Hbase & Hfst & Hsnd).
  fold run in Hfst, Hsnd.
  assert (forall pre ids r post,
             snd run = pre ++ IoBatchGetBuilds ids r :: post ->
             exists pre' ms,
               pre = pre' ++ [IoRemaining (Ok ms)] /\ (60000 <= ms)%Z)
    as Horder.
  { intros pre ids r post E. rewrite Hsnd in E.
    apply run_split in E as (post' & -> & E); try reflexivity.
    destruct (handler_trace_poll_event _ _ _ _ _ _ _ Hbase E eq_refl)
      as (name & response & pre2 & -> & Hpoll).
    destruct (poll_trace_query _ _ _ _ Hpoll _ _ _ _ eq_refl)
      as (_ & (pre' & ms & -> & Hms) & _).
    exists (IoClient (py "codebuild") (Ok tt)
              :: IoStartBuild name (Ok response) :: pre'), ms.
    auto. }
  split; [exact Horder|].
  intros pre ms post E Hlow.
  pose proof E as E0. rewrite Hsnd in E.
  apply run_split in E as (post' & -> & E); try reflexivity.
  destruct (handler_trace_poll_event _ _ _ _ _ _ _ Hbase E eq_refl)
    as (name & response & pre2 & -> & Hpoll).
  destruct (poll_trace_low_remaining _ _ _ _ Hpoll _ _ _ eq_refl Hlow)
    as [-> ->].
  split; [rewrite Hfst; reflexivity|].
  split.
  { exists name, response, r0. cbv zeta. split; [simpl; auto|].
    do 3 (split; [reflexivity|]).
    apply (timeout_message_mentions (id (build response))). }
  split.
  { rewrite Hsnd. rewrite count_app.
    rewrite (handler_trace_requests _ _ _ _ Hbase). reflexivity. }
  split; [reflexivity|].
  intros Hnone. rewrite E0. rewrite count_app.
  change (count is_status_query (IoRemaining (Ok ms) :: [] ++ [_]))
    with 0%nat.
  rewrite Nat.add_0_r.
  destruct (count_zero_or_split is_status_query
              (IoClient (py "codebuild") (Ok tt)
                 :: IoStartBuild name (Ok response) :: pre2))
    as [Hz|(a & x & b & Hab & Hx)]; [assumption|exfalso].
  destruct x; try discriminate.
  rewrite Hab in E0. rewrite <- app_assoc in E0.
  destruct (Horder _ _ _ _ E0) as (pre' & ms' & -> & _).
  rewrite Hab in Hnone. rewrite <- app_assoc in Hnone.
  exact (count_split_pos is_remaining_check pre' (IoRemaining (Ok ms')) _
                         eq_refl Hnone).
Qed.

(** C4: when, in a run on an event with the required fields (a create
    event, then), a status query answers "SUCCEEDED", the run ends right
    there with one callback, of Status "SUCCESS", whose Data message
    holds the identifier of the build, and the payload '{ "status": 200,
    "message": "success" }' is returned. *)
Theorem succeeded_build_reports_success (w : World) (event : dict)
    (context : Context) :
  has_fields required_fields event = true ->
  let run := lambda_handler w event context [] in
  forall ids out b rest,
    In (IoBatchGetBuilds ids (Ok out)) (snd run) ->
    builds out = b :: rest ->
    buildStatus b = py "SUCCEEDED" ->
    field event "RequestType" = PStr (py "Create")
    /\ fst run = Ok (text "{ 'status': 200, 'message': 'success' }")
    /\ (exists pre name response r,
          let msg :=
            py "CodeBuild project completed successfully. Build ID: "
              ++ id (build response) in
          let rep := message_report event context "SUCCESS" msg in
          In (IoStartBuild name (Ok response)) pre
          /\ ids = [id (build response)]
          /\ snd run =
               pre ++ [IoBatchGetBuilds ids (Ok out);
                       IoRequest (put_request event rep) r]
          /\ dict_get rep (py "Status") = Some (PStr (py "SUCCESS"))
          /\ dict_get rep (py "Data")
             = Some (PDict [(py "message", PStr msg)])
          /\ contains (id (build response)) msg)
    /\ count is_request (snd run) = 1%nat.
Proof.
  intros Hreq run ids out b rest Hin Hb Hs.
  destruct (run_shape w event context Hreq)
    as (base & p & r0 & Hbase & Hfst & Hsnd).
  fold run in Hfst, Hsnd.
  apply in_split in Hin as (pre & post & E).
  pose proof E as E0. rewrite Hsnd in E.
  apply run_split in E as (post' & -> & E); try reflexivity.
  destruct (handler_trace_poll_event _ _ _ _ _ _ _ Hbase E eq_refl)
    as (name & response & pre2 & -> & Hpoll).
  destruct (poll_trace_query _ _ _ _ Hpoll _ _ _ _ eq_refl)
    as (Hids & _ & _ & _ & Hok & _).
  destruct (Hok out b rest eq_refl Hb Hs) as [-> ->].
  split.
  { inversion Hbase; subst; now apply eq_str_true. }
  split; [rewrite Hfst; reflexivity|].
  split.
  - exists (IoClient (py "codebuild") (Ok tt)
              :: IoStartBuild name (Ok response) :: pre2),
           name, response, r0.
    cbv zeta. split; [simpl; auto|]. split; [assumption|].
    split; [exact E0|]. do 2 (split; [reflexivity|]).
    apply contains_end.
  - rewrite Hsnd. rewrite count_app.
    rewrite (handler_trace_requests _ _ _ _ Hbase). reflexivity.
Qed.

(** C5: when, in a run on an event with the required fields (a create
    event, then), a status query answers FAILED, FAULT, STOPPED or
    TIMED_OUT, the only event after it is the callback, of Status
    "FAILED", whose message mentions that status and the identifier of
    the build; the payload '{ "status": 500, "message": "build_failed" }'
    is returned and no status query follows. *)
Theorem failed_build_reports_failure (w : World) (event : dict)
    (context : Context) :
  has_fields required_fields event = true ->
  let run := lambda_handler w event context [] in
  forall pre ids out post b rest,
    snd run = pre ++ IoBatchGetBuilds ids (Ok out) :: post ->
    builds out = b :: rest ->
    buildStatus b = py "FAILED" \/ buildStatus b = py "FAULT"
    \/ buildStatus b = py "STOPPED" \/ buildStatus b = py "TIMED_OUT" ->
    field event "RequestType" = PStr (py "Create")
    /\ fst run = Ok (text "{ 'status': 500, 'message': 'build_failed' }")
    /\ (exists name response r,
          let msg :=
            py "CodeBuild " ++ buildStatus b ++ py ". Build ID: "
              ++ id (build response) ++ py ". Check CloudWatch logs." in
          let rep := message_report event context "FAILED" msg in
          In (IoStartBuild name (Ok response)) pre
          /\ ids = [id (build response)]
          /\ post = [IoRequest (put_request event rep) r]
          /\ dict_get rep (py "Status") = Some (PStr (py "FAILED"))
          /\ dict_get rep (py "Data")
             = Some (PDict [(py "message", PStr msg)])
          /\ contains (buildStatus b) msg
          /\ contains (id (build response)) msg)
    /\ count is_request (snd run) = 1%nat
    /\ count is_status_query post = 0%nat.
Proof.
  intros Hreq run pre ids out post b rest E Hb Hstatus.
  assert (In (buildStatus b) terminal_failures) as Hs.
  { unfold terminal_failures. simpl.
    destruct Hstatus as [-> | [-> | [-> | ->]]]; tauto. }
  destruct (run_shape w event context Hreq)
    as (base & p & r0 & Hbase & Hfst & Hsnd).
  fold run in Hfst, Hsnd.
  rewrite Hsnd in E.
  apply run_split in E as (post' & -> & E); try reflexivity.
  destruct (handler_trace_poll_event _ _ _ _ _ _ _ Hbase E eq_refl)
    as (name & response & pre2 & -> & Hpoll).
  destruct (poll_trace_query _ _ _ _ Hpoll _ _ _ _ eq_refl)
    as (Hids & _ & _ & _ & _ & Hko).
  destruct (Hko out b rest eq_refl Hb Hs) as [-> ->].
  split.
  { inversion Hbase; subst; now apply eq_str_true. }
  split; [rewrite Hfst; reflexivity|].
  split.
  - exists name, response, r0.
    cbv zeta. split; [simpl; auto|]. split; [assumption|].
    do 3 (split; [reflexivity|]).
    apply (failed_message_mentions (buildStatus b) (id (build response))).
  - split; [|reflexivity]. rewrite Hsnd. rewrite count_app.
    rewrite (handler_trace_requests _ _ _ _ Hbase). reflexivity.
Qed.

(** ** Exceptions *)

Lemma poll_trace_raised (build_id : pystr) (elapsed_time : Z) (tr : trace)
    (p : exit_path) :
  poll_trace build_id elapsed_time tr p ->
  forall x e, In x tr -> raised x = Some e -> p = Caught e.
Proof.
  induction 1; intros x ex Hin Hx; simpl in Hin;
    repeat match goal with
      | H : _ \/ _ |- _ => destruct H as [<-|H]
      | H : False |- _ => destruct H
      end;
    try (simpl in Hx; congruence).
  eapply IHpoll_trace; eauto.
Qed.

Lemma poll_trace_no_build (build_id : pystr) (elapsed_time : Z) (tr : trace)
    (p : exit_path) :
  poll_trace build_id elapsed_time tr p ->
  forall ids out, In (IoBatchGetBuilds ids (Ok out)) tr ->
                  builds out = [] -> p = Caught IndexError.
Proof.
  intros H ids out Hin Hb. apply in_split in Hin as (pre & post & E).
  destruct (poll_trace_query _ _ _ _ H _ _ _ _ E)
    as (_ & _ & _ & Hnone & _).
  now destruct (Hnone out eq_refl Hb).
Qed.

Lemma handler_trace_raised (w : World) (event : dict) (base : trace)
    (p : exit_path) :
  handler_trace w event base p ->
  forall x e, In x base -> raised x = Some e -> p = Caught e.
Proof.
  destruct 1; intros x ex Hin Hx; simpl in Hin;
    repeat match goal with
      | H : _ \/ _ |- _ => destruct H as [<-|H]
      | H : False |- _ => destruct H
      end;
    try (simpl in Hx; congruence).
  eapply poll_trace_raised; eauto.
Qed.

Lemma caught_is_reported (w : World) (event : dict) (context : Context)
    (base : trace) (r : result Z) (e : exn) :
  handler_trace w event base (Caught e) ->
  fst (lambda_handler w event context []) = Ok (payload_of (Caught e)) ->
  snd (lambda_handler w event context []) =
    base ++ [IoRequest (callback_of event context (Caught e)) r] ->
  reported_as_error event context (lambda_handler w event context []) e.
Proof.
  intros Hbase Hfst Hsnd. unfold reported_as_error. cbv zeta.
  split; [rewrite Hfst; reflexivity|].
  split; [exists base, r; exact Hsnd|].
  do 2 (split; [reflexivity|]).
  split; [apply contains_end|]. rewrite Hsnd, count_app.
  rewrite (handler_trace_requests _ _ _ _ Hbase). reflexivity.
Qed.

(** C6: on an event with the required fields the handler always returns:
    no exception escapes it.  An exception raised by the client factory,
    by the build trigger, by the remaining-time query or by a status
    query, the KeyError of a missing PROJECT_NAME and the IndexError of a
    status answer without builds are all caught: exactly one callback is
    sent, of Status "FAILED", with the message "Error: " followed by the
    text of the exception, and '{ "status": 500, "message": "error" }' is
    returned. *)
Theorem exceptions_are_caught (w : World) (event : dict)
    (context : Context) :
  has_fields required_fields event = true ->
  let run := lambda_handler w event context [] in
  (exists payload, fst run = Ok payload)
  /\ (forall x e, In x (snd run) -> raised x = Some e ->
        reported_as_error event context run e)
  /\ (forall service, In (IoClient service (Ok tt)) (snd run) ->
        environ w (py "PROJECT_NAME") = None ->
        reported_as_error event context run (KeyError (py "PROJECT_NAME")))
  /\ (forall ids out, In (IoBatchGetBuilds ids (Ok out)) (snd run) ->
        builds out = [] ->
        reported_as_error event context run IndexError).
Proof.
  intros Hreq run.
  destruct (run_shape w event context Hreq)
    as (base & p & r0 & Hbase & Hfst & Hsnd).
  fold run in Hfst, Hsnd.
  split; [eexists; exact Hfst|].
  split; [|split].
  - intros x e Hin Hx. rewrite Hsnd in Hin.
    apply in_app_or in Hin as [Hin|[<-|[]]]; [|discriminate].
    pose proof (handler_trace_raised _ _ _ _ Hbase _ _ Hin Hx) as ->.
    now apply (caught_is_reported w event context base r0).
  - intros service Hin Henv. rewrite Hsnd in Hin.
    apply in_app_or in Hin as [Hin|[Hin|[]]]; [|discriminate].
    assert (p = Caught (KeyError (py "PROJECT_NAME"))) as ->.
    { destruct Hbase; simpl in Hin;
        repeat match goal with
          | H : _ \/ _ |- _ => destruct H as [H|H]
          | H : False |- _ => destruct H
          end;
        congruence. }
    now apply (caught_is_reported w event context base r0).
  - intros ids out Hin Hb. rewrite Hsnd in Hin.
    apply in_app_or in Hin as [Hin|[Hin|[]]]; [|discriminate].
    assert (p = Caught IndexError) as ->.
    { destruct Hbase; simpl in Hin;
        repeat match goal with
          | H : _ \/ _ |- _ => destruct H as [H|H]
          | H : False |- _ => destruct H
          end;
        try congruence.
      eapply poll_trace_no_build; eauto. }
    now apply (caught_is_reported w event context base r0).
Qed.

(** ** The serialized report is ASCII *)

Lemma all_ascii_app (a b : pystr) :
  all_ascii a -> all_ascii b -> all_ascii (a ++ b).
Proof. intros Ha Hb. apply Forall_app. now split. Qed.

Lemma all_ascii_uint (d : Decimal.uint) :
  all_ascii (py (NilEmpty.string_of_uint d)).
Proof.
  induction d; simpl; try constructor; try assumption; reflexivity.
Qed.

Lemma all_ascii_str_int (z : Z) : all_ascii (str_int z).
Proof.
  unfold str_int, NilZero.string_of_int, NilZero.string_of_uint.
  destruct (Z.to_int z) as [d|d].
  - destruct d; try apply all_ascii_uint. repeat constructor.
  - change (all_ascii (45%N :: py match d with
                                  | Decimal.Nil => "0"%string
                                  | _ => NilEmpty.string_of_uint d
                                  end)).
    constructor; [reflexivity|].
    destruct d; try apply all_ascii_uint. repeat constructor.
Qed.

Lemma hex_digit_ascii (n : N) : is_ascii (hex_digit (n mod 16)).
Proof.
  pose proof (N.mod_lt n 16 ltac:(discriminate)) as H.
  unfold is_ascii, hex_digit. destruct (n mod 16 <? 10)%N; lia.
Qed.

Lemma u_escape_ascii (n : N) : all_ascii (u_escape n).
Proof.
  unfold u_escape. apply all_ascii_app.
  - repeat constructor.
  - repeat (constructor; [apply hex_digit_ascii|]). constructor.
Qed.

Lemma escape_char_ascii (c : codepoint) : all_ascii (escape_char c).
Proof.
  unfold escape_char.
  repeat match goal with
    | |- all_ascii (if (?a =? ?b)%N then _ else _) =>
        destruct (a =? b)%N; [repeat constructor|]
    end.
  destruct ((32 <=? c) && (c <=? 126))%N eqn:E.
  - apply andb_prop in E as [_ E]. apply N.leb_le in E.
    constructor; [unfold is_ascii; lia | constructor].
  - destruct (c <? 65536)%N.
    + apply u_escape_ascii.
    + apply all_ascii_app; apply u_escape_ascii.
Qed.

Lemma encode_basestring_ascii_ascii (s : pystr) :
  all_ascii (encode_basestring_ascii s).
Proof.
  unfold encode_basestring_ascii. apply all_ascii_app.
  - repeat constructor.
  - apply all_ascii_app; [|repeat constructor].
    induction s as [|c s IH]; simpl; [constructor|].
    apply all_ascii_app; [apply escape_char_ascii | exact IH].
Qed.

Lemma join_ascii (sep : pystr) (parts : list pystr) :
  all_ascii sep -> Forall all_ascii parts -> all_ascii (join sep parts).
Proof.
  intros Hsep. induction 1 as [|p parts Hp Hparts IH]; [constructor|].
  simpl. destruct parts as [|q parts]; [assumption|].
  apply all_ascii_app; [assumption|]. now apply all_ascii_app.
Qed.

Lemma json_dumps_ascii : forall v : pyval, all_ascii (json_dumps v).
Proof.
  fix IH 1. intros [| [|] | z | s | l | items]; simpl.
  - repeat constructor.
  - repeat constructor.
  - repeat constructor.
  - apply all_ascii_str_int.
  - apply encode_basestring_ascii_ascii.
  - constructor; [reflexivity|]. apply all_ascii_app; [|repeat constructor].
    apply join_ascii; [repeat constructor|].
    induction l as [|x l IHl]; simpl; constructor; [apply IH | exact IHl].
  - constructor; [reflexivity|]. apply all_ascii_app; [|repeat constructor].
    apply join_ascii; [repeat constructor|].
    induction items as [|[k x] items IHl]; simpl; constructor;
      [|exact IHl].
    change (all_ascii (encode_basestring_ascii k ++ py ": "
                         ++ json_dumps x)).
    apply all_ascii_app; [apply encode_basestring_ascii_ascii|].
    apply all_ascii_app; [repeat constructor | apply IH].
Qed.

(** ASCII text is its own UTF-8 encoding. *)
Lemma utf8_encode_ascii (s : pystr) :
  all_ascii s -> utf8_encode s = Some s.
Proof.
  induction 1 as [|c s Hc Hs IH]; [reflexivity|].
  simpl. rewrite IH. unfold utf8_char.
  unfold is_ascii in Hc. apply N.ltb_lt in Hc. now rewrite Hc.
Qed.

Lemma latin1_encode_ascii (s : pystr) :
  all_ascii s -> latin1_encode s = Some s.
Proof.
  induction 1 as [|c s Hc Hs IH]; [reflexivity|].
  simpl. rewrite IH. unfold is_ascii in Hc.
  assert ((c <? 256)%N = true) as -> by (apply N.ltb_lt; lia).
  reflexivity.
Qed.

(** ** The callback reporter *)

(** C7, as the code has it: when the PUT raises, [send] returns the empty
    mapping; when the PUT answers, with whatever status code, 2xx or not,
    [send] returns the report mapping itself (the dict, not its
    serialization).  Either way [send] returns and the PUT is its only
    interaction, so a failed delivery never reaches the caller. *)
Theorem send_swallows_delivery_failure (w : World) (event : dict)
    (context : Context) (st data phys ne reason : pyval) (t : trace) :
  has_fields callback_fields event = true ->
  let rep := report event context st data phys ne reason in
  let req := put_request event rep in
  let run := send w event context st data phys ne reason t in
  snd run = t ++ [IoRequest req (http_request w t req)]
  /\ (forall e, http_request w t req = Raise e -> fst run = Ok (PDict []))
  /\ (forall code, http_request w t req = Ok code ->
        fst run = Ok (PDict rep))
  /\ (exists v, fst run = Ok v).
Proof.
  intros H rep req run. subst run. rewrite send_run by assumption.
  fold rep. fold req. simpl fst. simpl snd.
  split; [reflexivity|]. split; [|split].
  - now intros e ->.
  - now intros code ->.
  - eexists. reflexivity.
Qed.

(** C8: the report [send] puts on the wire carries the StackId, RequestId
    and LogicalResourceId of the event, whatever their values; so does
    every callback of an invocation of the handler, whichever way it
    ends. *)
Theorem report_echoes_event (w : World) (event : dict) (context : Context) :
  has_fields callback_fields event = true ->
  (forall st data phys ne reason t,
      let rep := report event context st data phys ne reason in
      (exists r,
          snd (send w event context st data phys ne reason t) =
            t ++ [IoRequest (put_request event rep) r])
      /\ body (put_request event rep) = json_dumps (PDict rep)
      /\ echoes event rep)
  /\ (has_fields required_fields event = true ->
      forall req r,
        In (IoRequest req r) (snd (lambda_handler w event context [])) ->
        exists rep,
          req = put_request event rep
          /\ body req = json_dumps (PDict rep)
          /\ echoes event rep).
Proof.
  intros H.
  assert (forall st data phys ne reason,
             echoes event (report event context st data phys ne reason))
    as Hecho.
  { intros st data phys ne reason. unfold echoes, field.
    destruct (has_fields_get _ _ (py "StackId") H) as [v1 E1];
      [simpl; tauto|].
    destruct (has_fields_get _ _ (py "RequestId") H) as [v2 E2];
      [simpl; tauto|].
    destruct (has_fields_get _ _ (py "LogicalResourceId") H) as [v3 E3];
      [simpl; tauto|].
    rewrite E1, E2, E3. unfold report, field. rewrite E1, E2, E3.
    repeat split; reflexivity. }
  split.
  - intros st data phys ne reason t rep. split; [|split].
    + rewrite send_run by assumption. eexists. reflexivity.
    + reflexivity.
    + apply Hecho.
  - intros Hreq req r Hin.
    destruct (run_shape w event context Hreq)
      as (base & p & r0 & Hbase & _ & Hsnd).
    rewrite Hsnd in Hin. apply in_app_or in Hin as [Hin|[Hin|[]]].
    + apply in_split in Hin as (a & b & E).
      pose proof (handler_trace_requests _ _ _ _ Hbase) as Hz.
      rewrite E in Hz.
      now apply (count_split_pos is_request a (IoRequest req r) b) in Hz.
    + injection Hin as <- _. eexists. split; [reflexivity|].
      split; [reflexivity | apply Hecho].
Qed.

(** C9: the request [send] issues is a PUT to the ResponseURL of the
    event, with the headers content-type, empty, and content-length, the
    decimal length of the body, and with the serialized report as body;
    the body is ASCII, so its length is the number of bytes it takes on
    the wire, be it encoded as UTF-8 or as ISO-8859-1. *)
Theorem put_request_shape (w : World) (event : dict) (context : Context)
    (st data phys ne reason : pyval) (t : trace) :
  has_fields callback_fields event = true ->
  let rep := report event context st data phys ne reason in
  exists req r bytes,
    snd (send w event context st data phys ne reason t)
      = t ++ [IoRequest req r]
    /\ method req = py "PUT"
    /\ Some (url req) = dict_get event (py "ResponseURL")
    /\ headers req =
         [ (py "content-type", []);
           (py "content-length", str_int (Z.of_nat (List.length bytes))) ]
    /\ body req = json_dumps (PDict rep)
    /\ utf8_encode (body req) = Some bytes
    /\ latin1_encode (body req) = Some bytes.
Proof.
  intros H rep.
  exists (put_request event rep),
         (http_request w t (put_request event rep)),
         (json_dumps (PDict rep)).
  split; [now rewrite send_run by assumption|].
  split; [reflexivity|]. split.
  { destruct (has_fields_get _ _ (py "ResponseURL") H) as [v E];
      [simpl; tauto|].
    unfold put_request, field. cbn [url]. now rewrite E. }
  split; [reflexivity|]. split; [reflexivity|]. split.
  - apply utf8_encode_ascii, json_dumps_ascii.
  - apply latin1_encode_ascii, json_dumps_ascii.
Qed.

(** C10: a [reason] that is None or the empty string gives the default
    Reason, which names the log stream of the context; a
    [physicalResourceId] that is None or the empty string gives the
    log-stream name as PhysicalResourceId. *)
Theorem falsy_arguments_take_defaults (w : World) (event : dict)
    (context : Context) (st data phys ne reason : pyval) (t : trace) :
  has_fields callback_fields event = true ->
  exists rep r,
    snd (send w event context st data phys ne reason t)
      = t ++ [IoRequest (put_request event rep) r]
    /\ (reason = PNone \/ reason = PStr [] ->
        dict_get rep (py "Reason")
        = Some (PStr (py "See the details in CloudWatch Log Stream: "
                        ++ log_stream_name context)))
    /\ (phys = PNone \/ phys = PStr [] ->
        dict_get rep (py "PhysicalResourceId")
        = Some (PStr (log_stream_name context)))
    /\ (forall code, r = Ok code ->
        fst (send w event context st data phys ne reason t)
        = Ok (PDict rep)).
Proof.
  intros H.
  exists (report event context st data phys ne reason),
         (http_request w t
            (put_request event
               (report event context st data phys ne reason))).
  split; [now rewrite send_run by assumption|].
  split; [intros [-> | ->]; reflexivity|].
  split; [intros [-> | ->]; reflexivity|].
  intros code E. rewrite send_run by assumption. now rewrite E.
Qed.

(** ** The properties at work on concrete runs *)

(** The build succeeds at the second poll: one callback. *)
Lemma exactly_one_callback_witness :
  has_fields required_fields (sample_event "Create") = true
  /\ count is_request
       (snd (lambda_handler
               (healthy ["IN_PROGRESS"; "SUCCEEDED"]%string)
               (sample_event "Create") (sample_context 840000) []))
     = 1%nat.
Proof.
  split; [reflexivity|].
  apply (exactly_one_callback
           (healthy ["IN_PROGRESS"; "SUCCEEDED"]%string)
           (sample_event "Create") (sample_context 840000)).
  reflexivity.
Defined.

(** Scenario A: an Update event. *)
Lemma non_create_reports_success_witness :
  has_fields required_fields (sample_event "Update") = true
  /\ field (sample_event "Update") "RequestType" <> PStr (py "Create")
  /\ fst (lambda_handler (healthy [])
                         (sample_event "Update") (sample_context 840000) [])
     = Ok (text "{ 'status': 200, 'message': 'success' }")
  /\ count is_start_build
       (snd (lambda_handler (healthy [])
                            (sample_event "Update")
                            (sample_context 840000) []))
     = 0%nat.
Proof.
  assert (has_fields required_fields (sample_event "Update") = true) as H1
    by reflexivity.
  assert (field (sample_event "Update") "RequestType" <> PStr (py "Create"))
    as H2 by (vm_compute; discriminate).
  split; [exact H1|]. split; [exact H2|].
  destruct (non_create_reports_success
              (healthy [])
              (sample_event "Update") (sample_context 840000) H1 H2)
    as ((r & E) & _ & _ & _ & Hstart & _).
  split; [now rewrite E | exact Hstart].
Defined.

(** Scenario D: 50000 ms are left at the first check. *)
Lemma remaining_time_checked_first_witness :
  has_fields required_fields (sample_event "Create") = true
  /\ (50000 < 60000)%Z
  /\ fst (lambda_handler (healthy [])
                         (sample_event "Create") (sample_context 50000) [])
     = Ok (text "{ 'status': 500, 'message': 'timeout' }")
  /\ count is_status_query
       (snd (lambda_handler (healthy [])
                            (sample_event "Create")
                            (sample_context 50000) []))
     = 0%nat.
Proof.
  assert (has_fields required_fields (sample_event "Create") = true) as H1
    by reflexivity.
  assert (50000 < 60000)%Z as H2 by lia.
  split; [exact H1|]. split; [exact H2|].
  destruct (remaining_time_checked_first
              (healthy [])
              (sample_event "Create") (sample_context 50000) H1)
    as (_ & Hlow).
  destruct (Hlow [IoClient (py "codebuild") (Ok tt);
                  IoStartBuild (py "mirror") started]
                 50000%Z
                 [IoRequest
                    (callback (sample_event "Create") (sample_context 50000)
                              "FAILED"
                              (msg_timeout_approaching (py "mirror:b1")))
                    (Ok 200%Z)]
                 ltac:(vm_compute; reflexivity) H2)
    as (Hfst & _ & _ & _ & Hnone).
  split; [exact Hfst|]. apply Hnone. reflexivity.
Defined.

(** Scenario B: SUCCEEDED at the first poll. *)
Lemma succeeded_build_reports_success_witness :
  has_fields required_fields (sample_event "Create") = true
  /\ fst (lambda_handler (healthy ["SUCCEEDED"]%string)
                         (sample_event "Create") (sample_context 840000) [])
     = Ok (text "{ 'status': 200, 'message': 'success' }").
Proof.
  assert (has_fields required_fields (sample_event "Create") = true) as H1
    by reflexivity.
  split; [exact H1|].
  apply (succeeded_build_reports_success
           (healthy ["SUCCEEDED"]%string)
           (sample_event "Create") (sample_context 840000) H1
           [py "mirror:b1"]
           {| builds := [sample_build "SUCCEEDED"] |}
           (sample_build "SUCCEEDED") []).
  - vm_compute. tauto.
  - reflexivity.
  - reflexivity.
Defined.

(** Scenario C: FAILED at the first poll. *)
Lemma failed_build_reports_failure_witness :
  has_fields required_fields (sample_event "Create") = true
  /\ (buildStatus (sample_build "FAILED") = py "FAILED"
      \/ buildStatus (sample_build "FAILED") = py "FAULT"
      \/ buildStatus (sample_build "FAILED") = py "STOPPED"
      \/ buildStatus (sample_build "FAILED") = py "TIMED_OUT")
  /\ fst (lambda_handler (healthy ["FAILED"]%string)
                         (sample_event "Create") (sample_context 840000) [])
     = Ok (text "{ 'status': 500, 'message': 'build_failed' }").
Proof.
  assert (has_fields required_fields (sample_event "Create") = true) as H1
    by reflexivity.
  assert (buildStatus (sample_build "FAILED") = py "FAILED"
          \/ buildStatus (sample_build "FAILED") = py "FAULT"
          \/ buildStatus (sample_build "FAILED") = py "STOPPED"
          \/ buildStatus (sample_build "FAILED") = py "TIMED_OUT") as H2
    by (left; reflexivity).
  split; [exact H1|]. split; [exact H2|].
  apply (failed_build_reports_failure
           (healthy ["FAILED"]%string)
           (sample_event "Create") (sample_context 840000) H1
           [IoClient (py "codebuild") (Ok tt);
            IoStartBuild (py "mirror") started;
            IoRemaining (Ok 840000%Z)]
           [py "mirror:b1"]
           {| builds := [sample_build "FAILED"] |}
           [IoRequest
              (callback (sample_event "Create") (sample_context 840000)
                        "FAILED"
                        (msg_build_failed (py "FAILED") (py "mirror:b1")))
              (Ok 200%Z)]
           (sample_build "FAILED") []).
  - vm_compute. reflexivity.
  - reflexivity.
  - exact H2.
Defined.

(** Scenario E: the trigger raises. *)
Lemma exceptions_are_caught_witness :
  has_fields required_fields (sample_event "Create") = true
  /\ reported_as_error (sample_event "Create") (sample_context 840000)
       (lambda_handler (sample_world (Raise boom) [] (Ok 200%Z))
                       (sample_event "Create") (sample_context 840000) [])
       boom.
Proof.
  assert (has_fields required_fields (sample_event "Create") = true) as H1
    by reflexivity.
  split; [exact H1|].
  destruct (exceptions_are_caught
              (sample_world (Raise boom) [] (Ok 200%Z))
              (sample_event "Create") (sample_context 840000) H1)
    as (_ & Hraised & _).
  apply (Hraised (IoStartBuild (py "mirror") (Raise boom)) boom).
  - vm_compute. tauto.
  - reflexivity.
Defined.

(** C7, the return value after a non-2xx answer: the endpoint answers
    500 and [send] returns the report mapping [responseBody], not the
    text [json_responseBody] it has put on the wire. *)
Lemma send_returns_mapping_not_serialization :
  http_request rejecting [] (put_request (sample_event "Create")
                                         sample_report)
  = Ok 500%Z
  /\ fst (send rejecting (sample_event "Create") (sample_context 840000)
               (PStr (py "FAILED")) sample_data PNone (PBool false) PNone [])
     <> Ok (PStr (json_dumps (PDict sample_report)))
  /\ fst (send rejecting (sample_event "Create") (sample_context 840000)
               (PStr (py "FAILED")) sample_data PNone (PBool false) PNone [])
     = Ok (PDict sample_report).
Proof.
  split; [reflexivity|]. split.
  - vm_compute. discriminate.
  - vm_compute. reflexivity.
Qed.

(** The endpoint cannot be reached: [send] returns the empty mapping. *)
Lemma send_swallows_delivery_failure_witness :
  has_fields callback_fields (sample_event "Create") = true
  /\ fst (send unreachable (sample_event "Create") (sample_context 840000)
               (PStr (py "FAILED")) sample_data PNone (PBool false) PNone [])
     = Ok (PDict []).
Proof.
  assert (has_fields callback_fields (sample_event "Create") = true) as H1
    by reflexivity.
  split; [exact H1|].
  destruct (send_swallows_delivery_failure
              unreachable (sample_event "Create") (sample_context 840000)
              (PStr (py "FAILED")) sample_data PNone (PBool false) PNone []
              H1)
    as (_ & Hraise & _).
  apply (Hraise (Exception "MaxRetryError" (py "Max retries exceeded"))).
  reflexivity.
Defined.

Lemma report_echoes_event_witness :
  has_fields callback_fields (sample_event "Create") = true
  /\ echoes (sample_event "Create") sample_report.
Proof.
  assert (has_fields callback_fields (sample_event "Create") = true) as H1
    by reflexivity.
  split; [exact H1|].
  destruct (report_echoes_event
              (healthy []) (sample_event "Create") (sample_context 840000)
              H1)
    as (Hsend & _).
  apply (Hsend (PStr (py "FAILED")) sample_data PNone (PBool false) PNone []).
Defined.

Lemma put_request_shape_witness :
  has_fields callback_fields (sample_event "Create") = true
  /\ exists req r bytes,
       snd (send (healthy []) (sample_event "Create")
                 (sample_context 840000) (PStr (py "FAILED")) sample_data
                 PNone (PBool false) PNone [])
         = [IoRequest req r]
       /\ headers req =
            [ (py "content-type", []);
              (py "content-length",
                str_int (Z.of_nat (List.length bytes))) ]
       /\ utf8_encode (body req) = Some bytes.
Proof.
  assert (has_fields callback_fields (sample_event "Create") = true) as H1
    by reflexivity.
  split; [exact H1|].
  destruct (put_request_shape
              (healthy []) (sample_event "Create") (sample_context 840000)
              (PStr (py "FAILED")) sample_data PNone (PBool false) PNone []
              H1)
    as (req & r & bytes & Hsnd & _ & _ & Hh & _ & Hb & _).
  exists req, r, bytes. auto.
Defined.

Lemma falsy_arguments_take_defaults_witness :
  has_fields callback_fields (sample_event "Create") = true
  /\ exists rep r,
       snd (send (healthy []) (sample_event "Create")
                 (sample_context 840000) (PStr (py "FAILED")) sample_data
                 (PStr []) (PBool false) PNone [])
         = [IoRequest (put_request (sample_event "Create") rep) r]
       /\ dict_get rep (py "Reason")
          = Some (PStr (py "See the details in CloudWatch Log Stream: "
                          ++ py "2026/stream"))
       /\ dict_get rep (py "PhysicalResourceId")
          = Some (PStr (py "2026/stream")).
Proof.
  assert (has_fields callback_fields (sample_event "Create") = true) as H1
    by reflexivity.
  split; [exact H1|].
  destruct (falsy_arguments_take_defaults
              (healthy []) (sample_event "Create") (sample_context 840000)
              (PStr (py "FAILED")) sample_data (PStr []) (PBool false) PNone
              [] H1)
    as (rep & r & Hsnd & Hreason & Hphys & _).
  exists rep, r. split; [exact Hsnd|]. split.
  - apply Hreason. left. reflexivity.
  - apply Hphys. right. reflexivity.
Defined.

(** The build never leaves IN_PROGRESS and the context always reports
    840 seconds: the loop runs its 30 iterations and the budget branch
    reports the failure. *)
Example budget_exhaustion_run :
  let run := lambda_handler (healthy []) (sample_event "Create")
                            (sample_context 840000) [] in
  fst run = Ok (payload "500" "timeout")
  /\ count is_status_query (snd run) = 30%nat
  /\ count is_request (snd run) = 1%nat
  /\ last (snd run) (IoSleep 0)
     = IoRequest (callback (sample_event "Create") (sample_context 840000)
                           "FAILED" (msg_not_completed (py "mirror:b1")))
                 (Ok 200%Z).
Proof. vm_compute. repeat split; reflexivity. Qed.

(** The required fields are needed: without RequestType the KeyError of
    the first test leaves the handler, and without ResponseURL the one
    [send] raises does, in both cases before any callback. *)
Remark missing_request_type_escapes :
  lambda_handler (healthy []) [] (sample_context 840000) []
  = (Raise (KeyError (py "RequestType")), []).
Proof. reflexivity. Qed.

Remark missing_response_url_escapes :
  lambda_handler (healthy []) [(py "RequestType", PStr (py "Delete"))]
                 (sample_context 840000) []
  = (Raise (KeyError (py "ResponseURL")), []).
Proof. reflexivity. Qed.

(** ** The loop is bounded *)

Lemma count_cons (f : io -> bool) (x : io) (t : trace) :
  count f (x :: t) = ((if f x then 1 else 0) + count f t)%nat.
Proof. unfold count. simpl. now destruct (f x). Qed.

Lemma count_nil (f : io -> bool) : count f [] = 0%nat.
Proof. reflexivity. Qed.

Ltac count_events :=
  rewrite ?count_app, ?count_cons, ?count_nil;
  cbn [is_remaining_check is_sleep is_status_query is_request
       is_start_build].

Lemma poll_trace_bounds (build_id : pystr) (elapsed_time : Z) (tr : trace)
    (p : exit_path) :
  poll_trace build_id elapsed_time tr p ->
  (Z.of_nat (count is_remaining_check tr) * 30
   <= Z.max 0 (929 - elapsed_time))%Z
  /\ (count is_sleep tr <= count is_status_query tr)%nat
  /\ (count is_status_query tr <= count is_remaining_check tr)%nat
  /\ (count is_remaining_check tr <= count is_sleep tr + 1)%nat.
Proof.
  induction 1; unfold max_wait_time, wait_interval in *; count_events; lia.
Qed.

Lemma poll_trace_sleeps (build_id : pystr) (elapsed_time : Z) (tr : trace)
    (p : exit_path) :
  poll_trace build_id elapsed_time tr p ->
  forall secs, In (IoSleep secs) tr -> secs = wait_interval.
Proof.
  induction 1; intros secs Hin; simpl in Hin;
    repeat match goal with
      | H : _ \/ _ |- _ => destruct H as [H|H]
      | H : False |- _ => destruct H
      end;
    try discriminate; try congruence.
  now apply IHpoll_trace.
Qed.

Lemma handler_trace_bounds (w : World) (event : dict) (base : trace)
    (p : exit_path) :
  handler_trace w event base p ->
  (count is_remaining_check base <= 30)%nat
  /\ (count is_sleep base <= count is_status_query base)%nat
  /\ (count is_status_query base <= count is_remaining_check base)%nat
  /\ (count is_remaining_check base <= count is_sleep base + 1)%nat
  /\ (forall secs, In (IoSleep secs) base -> secs = 30%Z).
Proof.
  destruct 1 as [Hty|e Hty|Hty Henv|name e Hty Henv
                 |name response tr p Hty Henv Hpoll].
  1-4: count_events; repeat split; try lia;
    intros secs Hin; simpl in Hin;
    repeat match goal with
      | H : _ \/ _ |- _ => destruct H as [H|H]
      | H : False |- _ => destruct H
      end; discriminate.
  pose proof (poll_trace_bounds _ _ _ _ Hpoll) as (Hb & Hs & Hq & Hc).
  pose proof (poll_trace_sleeps _ _ _ _ Hpoll) as Hsl.
  count_events. repeat split; try lia.
  intros secs [Hin|[Hin|Hin]]; try discriminate. now apply Hsl.
Qed.

(** X1: the loop is bounded.  A run holds at most 30 remaining-time
    checks, 30 status queries and 30 sleeps, every sleep lasts 30 seconds,
    and the three go in step: a query needs a check before it, a sleep a
    query before it, and a new check comes only after the last sleep. *)
Theorem poll_loop_is_bounded (w : World) (event : dict) (context : Context) :
  has_fields required_fields event = true ->
  let t := snd (lambda_handler w event context []) in
  (count is_remaining_check t <= 30)%nat
  /\ (count is_sleep t <= count is_status_query t)%nat
  /\ (count is_status_query t <= count is_remaining_check t)%nat
  /\ (count is_remaining_check t <= count is_sleep t + 1)%nat
  /\ (forall secs, In (IoSleep secs) t -> secs = 30%Z).
Proof.
  intros Hreq t.
  destruct (run_shape w event context Hreq)
    as (base & p & r0 & Hbase & _ & Hsnd).
  subst t. rewrite Hsnd.
  destruct (handler_trace_bounds _ _ _ _ Hbase)
    as (Hc & Hs & Hq & Hcs & Hsl).
  count_events. repeat split; try lia.
  intros secs Hin. apply in_app_or in Hin as [Hin|[Hin|[]]];
    [now apply Hsl | discriminate].
Qed.

(** ** Giving up *)

Lemma poll_trace_budget (build_id : pystr) (elapsed_time : Z) (tr : trace)
    (p : exit_path) :
  poll_trace build_id elapsed_time tr p ->
  (exists k, elapsed_time = 30 * k)%Z ->
  (elapsed_time <= 900)%Z ->
  (p = BudgetExhausted build_id
   /\ (Z.of_nat (count is_sleep tr) * 30 = 900 - elapsed_time)%Z
   /\ (tr = [] \/ exists pre, tr = pre ++ [IoSleep wait_interval]))
  \/ ((forall b, p <> BudgetExhausted b)
      /\ (Z.of_nat (count is_sleep tr) * 30 < 900 - elapsed_time)%Z
      /\ exists pre x, tr = pre ++ [x] /\ is_sleep x = false).
Proof.
  induction 1; intros [k Hk] Hle; unfold max_wait_time, wait_interval in *.
  - left. split; [reflexivity|]. split; [|now left].
    count_events. lia.
  - right. split; [discriminate|]. split; [count_events; lia|].
    exists [], (IoRemaining (Raise e)). auto.
  - right. split; [discriminate|]. split; [count_events; lia|].
    exists [], (IoRemaining (Ok ms)). auto.
  - right. split; [discriminate|]. split; [count_events; lia|].
    exists [IoRemaining (Ok ms)], (IoBatchGetBuilds [build_id] (Raise e)).
    auto.
  - right. split; [discriminate|]. split; [count_events; lia|].
    exists [IoRemaining (Ok ms)], (IoBatchGetBuilds [build_id] (Ok out)).
    auto.
  - right. split; [discriminate|]. split; [count_events; lia|].
    exists [IoRemaining (Ok ms)], (IoBatchGetBuilds [build_id] (Ok out)).
    auto.
  - right. split; [discriminate|]. split; [count_events; lia|].
    exists [IoRemaining (Ok ms)], (IoBatchGetBuilds [build_id] (Ok out)).
    auto.
  - count_events.
    destruct IHpoll_trace as [(-> & Hs & Hlast)|(Hp & Hs & Hlast)];
      [exists (k + 1)%Z; lia | lia | |].
    + left. split; [reflexivity|]. split; [lia|]. right.
      destruct Hlast as [->|(pre & ->)].
      * exists [IoRemaining (Ok ms); IoBatchGetBuilds [build_id] (Ok out)].
        reflexivity.
      * exists (IoRemaining (Ok ms) :: IoBatchGetBuilds [build_id] (Ok out)
                  :: IoSleep 30 :: pre).
        reflexivity.
    + right. split; [assumption|]. split; [lia|].
      destruct Hlast as (pre & x & -> & Hx).
      exists (IoRemaining (Ok ms) :: IoBatchGetBuilds [build_id] (Ok out)
                :: IoSleep 30 :: pre), x.
      auto.
Qed.

Lemma last_two (A : Type) (a b : list A) (x y z : A) :
  a ++ [x] = b ++ [y; z] -> x = z /\ a = b ++ [y].
Proof.
  intros H. change (b ++ [y; z]) with (b ++ [y] ++ [z]) in H.
  rewrite app_assoc in H. apply app_inj_tail in H as [-> ->]. auto.
Qed.

(** X2: the handler gives up exactly after the thirtieth sleep.  A run
    holds 30 sleeps if and only if its callback comes right after a
    sleep; the callback then says that the build did not complete within
    900s, naming the build that was started, and the timeout payload is
    returned. *)
Theorem gives_up_after_thirtieth_sleep (w : World) (event : dict)
    (context : Context) :
  has_fields required_fields event = true ->
  let run := lambda_handler w event context [] in
  (count is_sleep (snd run) = 30%nat
   <-> exists pre secs req r,
         snd run = pre ++ [IoSleep secs; IoRequest req r])
  /\ (count is_sleep (snd run) = 30%nat ->
      fst run = Ok (text "{ 'status': 500, 'message': 'timeout' }")
      /\ exists pre name response r,
           let msg :=
             py "CodeBuild did not complete within 900s. Build ID: "
               ++ id (build response) in
           let rep := message_report event context "FAILED" msg in
           In (IoStartBuild name (Ok response)) pre
           /\ snd run = pre ++ [IoRequest (put_request event rep) r]
           /\ dict_get rep (py "Status") = Some (PStr (py "FAILED"))
           /\ dict_get rep (py "Data")
              = Some (PDict [(py "message", PStr msg)])).
Proof.
  intros Hreq run.
  destruct (run_shape w event context Hreq)
    as (base & p & r0 & Hbase & Hfst & Hsnd).
  fold run in Hfst, Hsnd. rewrite Hsnd, Hfst.
  destruct Hbase as [Hty|e Hty|Hty Henv|name e Hty Henv
                     |name response tr p Hty Henv Hpoll].
  1-4: count_events; split; [split|]; try (intros H; discriminate H);
    intros (pre & secs & req & r & E); apply last_two in E as [_ E];
    destruct pre as [|? [|? pre]]; simpl in E; try discriminate;
    destruct pre; discriminate.
  count_events.
  destruct (poll_trace_budget _ _ _ _ Hpoll) as
    [(-> & Hs & Hlast)|(Hp & Hs & Hlast)];
    [exists 0%Z; lia | lia | |].
  - assert (count is_sleep tr = 30%nat) as H30 by lia.
    destruct Hlast as [->|(pre & ->)]; [discriminate|].
    split; [split|].
    + intros _. exists (IoClient (py "codebuild") (Ok tt)
                          :: IoStartBuild name (Ok response) :: pre),
                       wait_interval,
                       (callback_of event context
                          (BudgetExhausted (id (build response)))),
                       r0.
      simpl. rewrite <- app_assoc. reflexivity.
    + intros _. lia.
    + intros _.
      split; [reflexivity|].
      exists (IoClient (py "codebuild") (Ok tt)
                :: IoStartBuild name (Ok response)
                :: pre ++ [IoSleep wait_interval]),
             name, response, r0.
      cbv zeta. split; [simpl; auto|].
      repeat split; reflexivity.
  - destruct Hlast as (pre & x & -> & Hx).
    split; [split|]; try lia.
    intros (pre' & secs & req & r & E). apply last_two in E as [_ E].
    change (IoClient (py "codebuild") (Ok tt)
              :: IoStartBuild name (Ok response) :: pre ++ [x])
      with ((IoClient (py "codebuild") (Ok tt)
               :: IoStartBuild name (Ok response) :: pre) ++ [x]) in E.
    apply app_inj_tail in E as [_ ->]. discriminate.
Qed.

(** ** What follows what *)

Lemma poll_trace_high_remaining (build_id : pystr) (elapsed_time : Z)
    (tr : trace) (p : exit_path) :
  poll_trace build_id elapsed_time tr p ->
  forall pre ms post,
    tr = pre ++ IoRemaining (Ok ms) :: post -> (60000 <= ms)%Z ->
    exists r post', post = IoBatchGetBuilds [build_id] r :: post'.
Proof.
  induction 1; intros pre ms' post E Hhigh;
    trace_cases pre E; try lia; eauto.
Qed.

Lemma poll_trace_keeps_waiting (build_id : pystr) (elapsed_time : Z)
    (tr : trace) (p : exit_path) :
  poll_trace build_id elapsed_time tr p ->
  forall pre ids out post b rest,
    tr = pre ++ IoBatchGetBuilds ids (Ok out) :: post ->
    builds out = b :: rest ->
    buildStatus b <> py "SUCCEEDED" ->
    ~ In (buildStatus b) terminal_failures ->
    exists post', post = IoSleep wait_interval :: post'.
Proof.
  induction 1; intros pre ids out' post b' rest' E Hb Hs Hf;
    trace_cases pre E; same_build; try congruence; eauto.
Qed.

Lemma poll_trace_raise_is_last (build_id : pystr) (elapsed_time : Z)
    (tr : trace) (p : exit_path) :
  poll_trace build_id elapsed_time tr p ->
  forall pre x e post,
    tr = pre ++ x :: post -> raised x = Some e ->
    post = [] /\ p = Caught e.
Proof.
  induction 1; intros pre x ex post E Hx;
    trace_cases pre E; try (simpl in Hx; discriminate);
    try (simpl in Hx; split; congruence); eauto.
Qed.

(** X3: a build is triggered at most once, right after the codebuild
    client was made, for the project PROJECT_NAME names, and only on a
    create event; a create event always starts by making the client. *)
Theorem build_triggered_once (w : World) (event : dict)
    (context : Context) :
  has_fields required_fields event = true ->
  let t := snd (lambda_handler w event context []) in
  (count is_start_build t <= 1)%nat
  /\ (forall pre name r post,
        t = pre ++ IoStartBuild name r :: post ->
        pre = [IoClient (py "codebuild") (Ok tt)]
        /\ environ w (py "PROJECT_NAME") = Some name
        /\ field event "RequestType" = PStr (py "Create"))
  /\ (field event "RequestType" = PStr (py "Create") ->
      exists r post, t = IoClient (py "codebuild") r :: post).
Proof.
  intros Hreq t.
  destruct (run_shape w event context Hreq)
    as (base & p & r0 & Hbase & _ & Hsnd).
  subst t. rewrite Hsnd. split; [|split].
  - destruct Hbase as [Hty|e Hty|Hty Henv|name e Hty Henv
                       |name response tr p Hty Henv Hpoll];
      count_events; try lia.
    apply poll_trace_counts in Hpoll as [_ Hpoll]. lia.
  - intros pre name r post E.
    apply run_split in E as (post' & -> & E); try reflexivity.
    destruct Hbase as [Hty|e Hty|Hty Henv|name' e Hty Henv
                       |name' response tr p Hty Henv Hpoll];
      try solve [trace_cases pre E];
      apply eq_str_true in Hty.
    + trace_cases pre E. auto.
    + destruct pre as [|a [|b pre]]; simpl in E; inversion E; subst.
      * auto.
      * apply poll_trace_counts in Hpoll as [_ Hpoll].
        now apply (count_split_pos is_start_build pre
                     (IoStartBuild name r) post') in Hpoll.
  - intros Hty. apply eq_str_true in Hty.
    destruct Hbase; try congruence; simpl; eauto.
Qed.

(** X4: a remaining-time check or a status query is made only once the
    client was made and the trigger answered, and a status query asks
    for the one build the trigger has returned. *)
Theorem queries_ask_for_started_build (w : World) (event : dict)
    (context : Context) :
  has_fields required_fields event = true ->
  let t := snd (lambda_handler w event context []) in
  (forall pre x post,
      t = pre ++ x :: post ->
      is_remaining_check x || is_status_query x = true ->
      exists name response pre',
        pre = IoClient (py "codebuild") (Ok tt)
                :: IoStartBuild name (Ok response) :: pre')
  /\ (forall pre ids r post,
        t = pre ++ IoBatchGetBuilds ids r :: post ->
        exists name response pre',
          pre = IoClient (py "codebuild") (Ok tt)
                  :: IoStartBuild name (Ok response) :: pre'
          /\ ids = [id (build response)]).
Proof.
  intros Hreq t.
  destruct (run_shape w event context Hreq)
    as (base & p & r0 & Hbase & _ & Hsnd).
  subst t. rewrite Hsnd. split.
  - intros pre x post E Hx.
    apply run_split in E as (post' & -> & E);
      [|reflexivity|destruct x; (reflexivity || discriminate)].
    destruct (handler_trace_poll_event _ _ _ _ _ _ _ Hbase E Hx)
      as (name & response & pre2 & -> & _).
    eauto.
  - intros pre ids r post E.
    apply run_split in E as (post' & -> & E); try reflexivity.
    destruct (handler_trace_poll_event _ _ _ _ _ _ _ Hbase E eq_refl)
      as (name & response & pre2 & -> & Hpoll).
    destruct (poll_trace_query _ _ _ _ Hpoll _ _ _ _ eq_refl) as (-> & _).
    eauto.
Qed.

(** X5: a remaining-time check that finds 60 seconds or more (60000 ms
    itself included) is always followed by a status query for the build
    that was started: with time left the handler never gives up at the
    check. *)
Theorem enough_time_left_polls (w : World) (event : dict)
    (context : Context) :
  has_fields required_fields event = true ->
  forall pre ms post,
    snd (lambda_handler w event context [])
      = pre ++ IoRemaining (Ok ms) :: post ->
    (60000 <= ms)%Z ->
    exists name response r post',
      In (IoStartBuild name (Ok response)) pre
      /\ post = IoBatchGetBuilds [id (build response)] r :: post'.
Proof.
  intros Hreq pre ms post E Hhigh.
  destruct (run_shape w event context Hreq)
    as (base & p & r0 & Hbase & _ & Hsnd).
  rewrite Hsnd in E.
  apply run_split in E as (post' & -> & E); try reflexivity.
  destruct (handler_trace_poll_event _ _ _ _ _ _ _ Hbase E eq_refl)
    as (name & response & pre2 & -> & Hpoll).
  destruct (poll_trace_high_remaining _ _ _ _ Hpoll _ _ _ eq_refl Hhigh)
    as (r & post'' & ->).
  exists name, response, r, (post'' ++ [IoRequest
                                          (callback_of event context p) r0]).
  split; [simpl; auto | reflexivity].
Qed.

(** X6: a status other than SUCCEEDED, FAILED, FAULT, STOPPED and
    TIMED_OUT (IN_PROGRESS, an unknown one, one in another case) is taken
    as still running: the next thing the handler does is to sleep 30
    seconds. *)
Theorem other_status_keeps_waiting (w : World) (event : dict)
    (context : Context) :
  has_fields required_fields event = true ->
  forall pre ids out post b rest,
    snd (lambda_handler w event context [])
      = pre ++ IoBatchGetBuilds ids (Ok out) :: post ->
    builds out = b :: rest ->
    buildStatus b <> py "SUCCEEDED" ->
    ~ In (buildStatus b) terminal_failures ->
    exists post', post = IoSleep 30 :: post'.
Proof.
  intros Hreq pre ids out post b rest E Hb Hs Hf.
  destruct (run_shape w event context Hreq)
    as (base & p & r0 & Hbase & _ & Hsnd).
  rewrite Hsnd in E.
  apply run_split in E as (post' & -> & E); try reflexivity.
  destruct (handler_trace_poll_event _ _ _ _ _ _ _ Hbase E eq_refl)
    as (name & response & pre2 & -> & Hpoll).
  destruct (poll_trace_keeps_waiting _ _ _ _ Hpoll _ _ _ _ _ _
              eq_refl Hb Hs Hf) as (post'' & ->).
  eexists. reflexivity.
Qed.

(** X7: nothing is retried.  When a call of the try block raises, the
    next and last thing the handler does is to send the callback whose
    Status is "FAILED" and whose Data is the mapping of "message" to
    "Error: " followed by the text of that exception. *)
Theorem exception_ends_the_run (w : World) (event : dict)
    (context : Context) :
  has_fields required_fields event = true ->
  forall pre x e post,
    snd (lambda_handler w event context []) = pre ++ x :: post ->
    raised x = Some e ->
    exists r,
      let msg := py "Error: " ++ exn_text e in
      let rep := message_report event context "FAILED" msg in
      post = [IoRequest (put_request event rep) r]
      /\ dict_get rep (py "Status") = Some (PStr (py "FAILED"))
      /\ dict_get rep (py "Data")
         = Some (PDict [(py "message", PStr msg)]).
Proof.
  intros Hreq pre x e post E Hx.
  destruct (run_shape w event context Hreq)
    as (base & p & r0 & Hbase & _ & Hsnd).
  rewrite Hsnd in E.
  apply run_split in E as (post' & -> & E);
    [|reflexivity|destruct x; (reflexivity || discriminate)].
  exists r0. cbv zeta.
  destruct Hbase as [Hty|e' Hty|Hty Henv|name e' Hty Henv
                     |name response tr p Hty Henv Hpoll].
  - trace_cases pre E.
  - trace_cases pre E. simpl in Hx. injection Hx as ->.
    repeat split; reflexivity.
  - trace_cases pre E. discriminate.
  - trace_cases pre E; simpl in Hx; try discriminate.
    injection Hx as ->. repeat split; reflexivity.
  - destruct pre as [|a [|b pre]]; simpl in E; inversion E; subst;
      try (simpl in Hx; discriminate).
    destruct (poll_trace_raise_is_last _ _ _ _ Hpoll _ _ _ _ eq_refl Hx)
      as [-> ->].
    repeat split; reflexivity.
Qed.

(** ** The answer of the callback endpoint changes nothing *)

Lemma send4_run (w : World) (event : dict) (context : Context)
    (status : string) (msg : pystr) (t : trace) :
  has_fields callback_fields event = true ->
  exists v,
    send4 w event context status (message_data msg) t =
      (Ok v,
       t ++ [IoRequest (callback event context status msg)
                       (http_request w t
                          (callback event context status msg))]).
Proof.
  intros H. unfold send4. rewrite send_run by assumption.
  eexists. reflexivity.
Qed.

Ltac run_send4 w H :=
  match goal with
  | |- context [send4 w ?ev ?ctx ?st (message_data ?msg) ?t] =>
      let v := fresh "v" in
      let E := fresh "E" in
      destruct (send4_run w ev ctx st msg t H) as [v E]; rewrite E
  end.

Lemma poll_same_services (w w' : World) (event : dict) (context : Context)
    (build_id : pystr) (elapsed_time : Z) :
  same_services w w' ->
  has_fields callback_fields event = true ->
  forall t, exists tr p,
    poll w event context build_id elapsed_time t =
      match p with
      | Caught e => (Raise e, t ++ tr)
      | _ => (Ok (payload_of p), delivered w event context (t ++ tr) p)
      end
    /\ poll w' event context build_id elapsed_time t =
         match p with
         | Caught e => (Raise e, t ++ tr)
         | _ => (Ok (payload_of p), delivered w' event context (t ++ tr) p)
         end.
Proof.
  intros (_ & _ & _ & Hq). revert event context build_id elapsed_time.
  apply (poll_elim w
           (fun event context build_id elapsed_time m =>
              has_fields callback_fields event = true ->
              forall t, exists tr p,
                m t =
                  match p with
                  | Caught e => (Raise e, t ++ tr)
                  | _ => (Ok (payload_of p),
                          delivered w event context (t ++ tr) p)
                  end
                /\ poll w' event context build_id elapsed_time t =
                     match p with
                     | Caught e => (Raise e, t ++ tr)
                     | _ => (Ok (payload_of p),
                             delivered w' event context (t ++ tr) p)
                     end)).
  - intros event context build_id elapsed_time l IH Heq Hev t.
    rewrite (poll_equation_1 w'), Heq. cbn [poll_unfold_clause_1].
    unfold bind, call, time_sleep, first_build, ret, raise.
    destruct (get_remaining_time_in_millis context t) as [ms|e].
    + cbv zeta. destruct (Qlt_bool (true_div ms 1000) 60).
      * exists [IoRemaining (Ok ms)], (TimeoutImminent build_id).
        run_send4 w Hev. run_send4 w' Hev. split; reflexivity.
      * rewrite <- Hq.
        destruct (batch_get_builds w _ [build_id]) as [out|e].
        -- destruct (builds out) as [|b rest].
           ++ exists [IoRemaining (Ok ms);
                      IoBatchGetBuilds [build_id] (Ok out)],
                     (Caught IndexError).
              rewrite <- !app_assoc. split; reflexivity.
           ++ destruct (str_eqb (buildStatus b) (py "SUCCEEDED")).
              ** exists [IoRemaining (Ok ms);
                         IoBatchGetBuilds [build_id] (Ok out)],
                        (BuildSucceeded build_id).
                 run_send4 w Hev. run_send4 w' Hev. unfold delivered.
                 rewrite <- !app_assoc. split; reflexivity.
              ** destruct (str_in (buildStatus b) terminal_failures).
                 --- exists [IoRemaining (Ok ms);
                             IoBatchGetBuilds [build_id] (Ok out)],
                            (BuildFailed build_id (buildStatus b)).
                     run_send4 w Hev. run_send4 w' Hev. unfold delivered.
                     rewrite <- !app_assoc. split; reflexivity.
                 --- destruct (IH ms out b tt t Hev
                                 (((t ++ [IoRemaining (Ok ms)])
                                    ++ [IoBatchGetBuilds [build_id]
                                                         (Ok out)])
                                    ++ [IoSleep wait_interval]))
                       as (tr & p & Hp & Hp').
                     exists (IoRemaining (Ok ms)
                               :: IoBatchGetBuilds [build_id] (Ok out)
                               :: IoSleep wait_interval :: tr), p.
                     rewrite Hp, Hp'. rewrite <- !app_assoc.
                     split; reflexivity.
        -- exists [IoRemaining (Ok ms);
                   IoBatchGetBuilds [build_id] (Raise e)], (Caught e).
           rewrite <- !app_assoc. split; reflexivity.
    + exists [IoRemaining (Raise e)], (Caught e). split; reflexivity.
  - intros event context build_id elapsed_time n Heq Hev t.
    rewrite (poll_equation_1 w'), Heq. cbn [poll_unfold_clause_1].
    unfold bind, ret.
    exists [], (BudgetExhausted build_id).
    run_send4 w Hev. run_send4 w' Hev. unfold delivered.
    rewrite !app_nil_r. split; reflexivity.
Qed.

(** X8: what the callback endpoint answers (a 2xx, an error status, no
    answer at all) has no effect on the handler: in two worlds that
    differ only in that answer it returns the same payload after the same
    interactions, the same callback last. *)
Theorem endpoint_answer_is_ignored (w w' : World) (event : dict)
    (context : Context) :
  same_services w w' ->
  has_fields required_fields event = true ->
  exists pre req,
    fst (lambda_handler w event context [])
    = fst (lambda_handler w' event context [])
    /\ snd (lambda_handler w event context [])
       = pre ++ [IoRequest req (http_request w pre req)]
    /\ snd (lambda_handler w' event context [])
       = pre ++ [IoRequest req (http_request w' pre req)].
Proof.
  intros Hsame Hreq. pose proof (required_callback_fields _ Hreq) as Hev.
  pose proof Hsame as (Henv & Hc & Hs & _).
  unfold lambda_handler, try_except, bind, call, os_environ, ret, raise.
  rewrite (getitem_field _ "RequestType" _ [] Hreq) by (simpl; tauto).
  destruct (eq_str (field event "RequestType") (py "Create")).
  - rewrite <- Hc, <- Henv.
    destruct (boto3_client w [] (py "codebuild")) as [[]|e].
    + destruct (environ w (py "PROJECT_NAME")) as [name|].
      * rewrite <- Hs.
        destruct (start_build w _ name) as [response|e].
        -- cbv zeta.
           destruct (poll_same_services w w' event context
                       (id (build response)) 0 Hsame Hev
                       (([] ++ [IoClient (py "codebuild") (Ok tt)])
                          ++ [IoStartBuild name (Ok response)]))
             as (tr & p & Hp & Hp').
           rewrite Hp, Hp'.
           exists (IoClient (py "codebuild") (Ok tt)
                     :: IoStartBuild name (Ok response) :: tr),
                  (callback_of event context p).
           destruct p; try (repeat split; reflexivity).
           run_send4 w Hev. run_send4 w' Hev. repeat split; reflexivity.
        -- exists [IoClient (py "codebuild") (Ok tt);
                   IoStartBuild name (Raise e)],
                  (callback_of event context (Caught e)).
           run_send4 w Hev. run_send4 w' Hev. repeat split; reflexivity.
      * exists [IoClient (py "codebuild") (Ok tt)],
               (callback_of event context
                  (Caught (KeyError (py "PROJECT_NAME")))).
        run_send4 w Hev. run_send4 w' Hev. repeat split; reflexivity.
    + exists [IoClient (py "codebuild") (Raise e)],
             (callback_of event context (Caught e)).
      run_send4 w Hev. run_send4 w' Hev. repeat split; reflexivity.
  - exists [], (callback_of event context NonCreate).
    run_send4 w Hev. run_send4 w' Hev. repeat split; reflexivity.
Qed.

(** ** Events that lack a field *)

Lemma first_missing_spec (fields : list pystr) (event : dict) (k : pystr) :
  first_missing fields event = Some k ->
  In k fields /\ dict_get event k = None.
Proof.
  unfold first_missing. intros H. apply find_some in H as [Hin Hk].
  split; [assumption|]. now destruct (dict_get event k).
Qed.

Lemma has_fields_first_missing (fields : list pystr) (event : dict) :
  has_fields fields event = true <-> first_missing fields event = None.
Proof.
  unfold has_fields, first_missing.
  induction fields as [|f fields IH]; simpl; [tauto|].
  destruct (dict_get event f); simpl; [exact IH|].
  split; discriminate.
Qed.

Lemma send_raises (w : World) (event : dict) (context : Context)
    (st data phys ne reason : pyval) (t : trace) (k : pystr) :
  first_missing callback_fields event = Some k ->
  send w event context st data phys ne reason t = (Raise (KeyError k), t).
Proof.
  unfold first_missing, callback_fields. cbn [find].
  unfold send, bind, getitem.
  destruct (dict_get event (py "ResponseURL"));
    [|intros [= <-]; reflexivity].
  destruct (dict_get event (py "StackId"));
    [|intros [= <-]; reflexivity].
  destruct (dict_get event (py "RequestId"));
    [|intros [= <-]; reflexivity].
  destruct (dict_get event (py "LogicalResourceId"));
    [discriminate | intros [= <-]; reflexivity].
Qed.

Lemma poll_raises (w : World) (event : dict) (context : Context)
    (build_id : pystr) (elapsed_time : Z) (k : pystr) :
  first_missing callback_fields event = Some k ->
  forall t, exists e t',
    poll w event context build_id elapsed_time t = (Raise e, t')
    /\ count is_request t' = count is_request t.
Proof.
  revert event context build_id elapsed_time.
  apply (poll_elim w
           (fun event context build_id elapsed_time m =>
              first_missing callback_fields event = Some k ->
              forall t, exists e t',
                m t = (Raise e, t')
                /\ count is_request t' = count is_request t)).
  - intros event context build_id elapsed_time l IH _ Hk t.
    unfold bind, call, time_sleep, first_build, ret, raise, send4.
    destruct (get_remaining_time_in_millis context t) as [ms|e];
      [|do 2 eexists; split; [reflexivity | count_events; lia]].
    cbv zeta. destruct (Qlt_bool (true_div ms 1000) 60).
    { rewrite (send_raises w event context _ _ _ _ _ _ k Hk).
      do 2 eexists. split; [reflexivity | count_events; lia]. }
    destruct (batch_get_builds w _ [build_id]) as [out|e];
      [|do 2 eexists; split; [reflexivity | count_events; lia]].
    destruct (builds out) as [|b rest];
      [do 2 eexists; split; [reflexivity | count_events; lia]|].
    destruct (str_eqb (buildStatus b) (py "SUCCEEDED")).
    { rewrite (send_raises w event context _ _ _ _ _ _ k Hk).
      do 2 eexists. split; [reflexivity | count_events; lia]. }
    destruct (str_in (buildStatus b) terminal_failures).
    { rewrite (send_raises w event context _ _ _ _ _ _ k Hk).
      do 2 eexists. split; [reflexivity | count_events; lia]. }
    destruct (IH ms out b tt t Hk
                (((t ++ [IoRemaining (Ok ms)])
                   ++ [IoBatchGetBuilds [build_id] (Ok out)])
                   ++ [IoSleep wait_interval]))
      as (e & t' & Hp & Hc).
    exists e, t'. split; [exact Hp|].
    rewrite Hc. count_events. lia.
  - intros event context build_id elapsed_time n _ Hk t.
    unfold bind, send4.
    rewrite (send_raises w event context _ _ _ _ _ _ k Hk).
    do 2 eexists. split; reflexivity.
Qed.

(** X9: [send] needs its four fields.  When the event lacks one, [send]
    raises the KeyError of the first one it looks up and finds missing
    (ResponseURL, then StackId, RequestId, LogicalResourceId) and issues
    no request at all. *)
Theorem send_raises_on_missing_field (w : World) (event : dict)
    (context : Context) (st data phys ne reason : pyval) (t : trace)
    (k : pystr) :
  first_missing callback_fields event = Some k ->
  In k callback_fields
  /\ dict_get event k = None
  /\ send w event context st data phys ne reason t
     = (Raise (KeyError k), t).
Proof.
  intros Hk. destruct (first_missing_spec _ _ _ Hk) as [Hin Hnone].
  split; [assumption|]. split; [assumption|]. now apply send_raises.
Qed.

(** X10: the handler returns if and only if the event holds the five
    required fields.  Otherwise the KeyError of the first missing field
    (RequestType, ResponseURL, StackId, RequestId, LogicalResourceId, in
    that order) leaves the handler and no callback is sent, whatever was
    done before. *)
Theorem handler_raises_without_required_field (w : World) (event : dict)
    (context : Context) :
  let run := lambda_handler w event context [] in
  ((exists payload, fst run = Ok payload)
   <-> has_fields required_fields event = true)
  /\ (forall k, first_missing required_fields event = Some k ->
        fst run = Raise (KeyError k)
        /\ count is_request (snd run) = 0%nat).
Proof.
  intros run.
  assert (forall k, first_missing required_fields event = Some k ->
            fst run = Raise (KeyError k)
            /\ count is_request (snd run) = 0%nat) as Hraise.
  { intros k Hk. subst run.
    unfold lambda_handler. unfold bind at 1. unfold getitem.
    unfold first_missing, required_fields in Hk. cbn [find] in Hk.
    destruct (dict_get event (py "RequestType")) as [ty|];
      [|injection Hk as <-; split; reflexivity].
    fold (first_missing callback_fields event) in Hk.
    unfold ret at 1.
    unfold try_except, bind, call, os_environ, ret, raise, send4.
    destruct (eq_str ty (py "Create"));
      [|rewrite (send_raises w event context _ _ _ _ _ _ k Hk);
        split; reflexivity].
    destruct (boto3_client w [] (py "codebuild")) as [[]|e];
      [|rewrite (send_raises w event context _ _ _ _ _ _ k Hk);
        split; reflexivity].
    destruct (environ w (py "PROJECT_NAME")) as [name|];
      [|rewrite (send_raises w event context _ _ _ _ _ _ k Hk);
        split; reflexivity].
    destruct (start_build w _ name) as [response|e];
      [|rewrite (send_raises w event context _ _ _ _ _ _ k Hk);
        split; reflexivity].
    cbv zeta.
    destruct (poll_raises w event context (id (build response)) 0 k Hk
                (([] ++ [IoClient (py "codebuild") (Ok tt)])
                   ++ [IoStartBuild name (Ok response)]))
      as (e & t' & Hp & Hc).
    rewrite Hp. rewrite (send_raises w event context _ _ _ _ _ _ k Hk).
    split; [reflexivity|]. simpl snd. rewrite Hc. reflexivity. }
  split; [|exact Hraise]. split.
  - intros [payload Hok].
    destruct (has_fields required_fields event) eqn:Hf; [reflexivity|].
    destruct (first_missing required_fields event) as [k|] eqn:Hk.
    + destruct (Hraise k eq_refl) as [Hr _]. congruence.
    + apply has_fields_first_missing in Hk. congruence.
  - intros Hf. destruct (handler_run w event context Hf) as (tr & p & _ & Hp).
    exists (payload_of p). subst run. now rewrite Hp.
Qed.

(** ** The callbacks of the handler *)

(** X11: every callback of the handler has the same make: the default
    Reason naming the log stream, the log-stream name as
    PhysicalResourceId, NoEcho false, and a Data mapping with the one key
    "message".  Its Status agrees with the payload returned: "SUCCESS"
    with status 200, "FAILED" with status 500. *)
Theorem callback_agrees_with_payload (w : World) (event : dict)
    (context : Context) :
  has_fields required_fields event = true ->
  let run := lambda_handler w event context [] in
  exists pre status msg r,
    let rep := handler_report event context status msg in
    snd run = pre ++ [IoRequest (put_request event rep) r]
    /\ dict_get rep (py "Status") = Some (PStr (py status))
    /\ dict_get rep (py "Reason")
       = Some (PStr (py "See the details in CloudWatch Log Stream: "
                       ++ log_stream_name context))
    /\ dict_get rep (py "PhysicalResourceId")
       = Some (PStr (log_stream_name context))
    /\ dict_get rep (py "NoEcho") = Some (PBool false)
    /\ dict_get rep (py "Data") = Some (PDict [(py "message", PStr msg)])
    /\ ((status = "SUCCESS"%string
         /\ fst run = Ok (payload "200" "success"))
        \/ (status = "FAILED"%string
            /\ exists m,
                 In m ["timeout"; "build_failed"; "error"]%string
                 /\ fst run = Ok (payload "500" m))).
Proof.
  intros Hreq run.
  destruct (run_shape w event context Hreq)
    as (base & p & r0 & _ & Hfst & Hsnd).
  fold run in Hfst, Hsnd.
  exists base, (callback_status p), (callback_message p), r0.
  cbv zeta. split; [exact Hsnd|].
  do 5 (split; [reflexivity|]).
  rewrite Hfst.
  destruct p; simpl callback_status; simpl payload_of;
    try (left; split; reflexivity);
    right; (split; [reflexivity|]).
  - exists "build_failed"%string. simpl. auto.
  - exists "timeout"%string. simpl. auto.
  - exists "timeout"%string. simpl. auto.
  - exists "error"%string. simpl. auto.
Qed.

(** X12: [reason] and [physicalResourceId] follow Python's [or]: a truthy
    value is reported as it is, and every falsy one (None and the empty
    string, but also False, 0, an empty list or mapping) gives way to the
    default. *)
Theorem report_follows_python_or (w : World) (event : dict)
    (context : Context) (st data phys ne reason : pyval) (t : trace) :
  has_fields callback_fields event = true ->
  exists rep r,
    snd (send w event context st data phys ne reason t)
      = t ++ [IoRequest (put_request event rep) r]
    /\ (truthy reason = true -> dict_get rep (py "Reason") = Some reason)
    /\ (truthy reason = false ->
        dict_get rep (py "Reason")
        = Some (PStr (py "See the details in CloudWatch Log Stream: "
                        ++ log_stream_name context)))
    /\ (truthy phys = true ->
        dict_get rep (py "PhysicalResourceId") = Some phys)
    /\ (truthy phys = false ->
        dict_get rep (py "PhysicalResourceId")
        = Some (PStr (log_stream_name context))).
Proof.
  intros H.
  exists (report event context st data phys ne reason),
         (http_request w t
            (put_request event
               (report event context st data phys ne reason))).
  split; [now rewrite send_run by assumption|].
  unfold report, py_or, default_reason.
  repeat split; intros ->; reflexivity.
Qed.

(** ** The body on the wire *)

Lemma all_printable_app (a b : pystr) :
  all_printable a = true -> all_printable b = true ->
  all_printable (a ++ b) = true.
Proof.
  unfold all_printable. intros Ha Hb. rewrite forallb_app, Ha, Hb.
  reflexivity.
Qed.

Lemma all_printable_uint (d : Decimal.uint) :
  all_printable (py (NilEmpty.string_of_uint d)) = true.
Proof. induction d; simpl; auto. Qed.

Lemma all_printable_str_int (z : Z) : all_printable (str_int z) = true.
Proof.
  unfold str_int, NilZero.string_of_int, NilZero.string_of_uint.
  destruct (Z.to_int z) as [d|d].
  - destruct d; try apply all_printable_uint. reflexivity.
  - change (all_printable (45%N :: py match d with
                                      | Decimal.Nil => "0"%string
                                      | _ => NilEmpty.string_of_uint d
                                      end) = true).
    change (all_printable (py match d with
                              | Decimal.Nil => "0"%string
                              | _ => NilEmpty.string_of_uint d
                              end) = true).
    destruct d; try apply all_printable_uint. reflexivity.
Qed.

Lemma hex_digit_printable (n : N) : printable (hex_digit (n mod 16)) = true.
Proof.
  pose proof (N.mod_lt n 16 ltac:(discriminate)) as H.
  revert H. generalize (n mod 16)%N. intros d H.
  unfold printable, hex_digit.
  destruct (d <? 10)%N; apply andb_true_intro; split;
    apply N.leb_le; lia.
Qed.

Lemma u_escape_printable (n : N) : all_printable (u_escape n) = true.
Proof.
  unfold u_escape. apply all_printable_app; [reflexivity|].
  unfold all_printable. cbn [forallb]. rewrite !hex_digit_printable.
  reflexivity.
Qed.

Lemma escape_char_printable (c : codepoint) :
  all_printable (escape_char c) = true.
Proof.
  unfold escape_char.
  repeat match goal with
    | |- all_printable (if (?a =? ?b)%N then _ else _) = true =>
        destruct (a =? b)%N; [reflexivity|]
    end.
  destruct ((32 <=? c) && (c <=? 126))%N eqn:E.
  - unfold all_printable, printable. cbn [forallb]. now rewrite E.
  - destruct (c <? 65536)%N.
    + apply u_escape_printable.
    + apply all_printable_app; apply u_escape_printable.
Qed.

Lemma encode_basestring_printable (s : pystr) :
  all_printable (encode_basestring_ascii s) = true.
Proof.
  unfold encode_basestring_ascii. apply all_printable_app; [reflexivity|].
  apply all_printable_app; [|reflexivity].
  induction s as [|c s IH]; [reflexivity|]. simpl.
  apply all_printable_app; [apply escape_char_printable | exact IH].
Qed.

Lemma join_printable (sep : pystr) (parts : list pystr) :
  all_printable sep = true ->
  Forall (fun p => all_printable p = true) parts ->
  all_printable (join sep parts) = true.
Proof.
  intros Hsep. induction 1 as [|p parts Hp Hparts IH]; [reflexivity|].
  simpl. destruct parts as [|q parts]; [assumption|].
  apply all_printable_app; [assumption|]. now apply all_printable_app.
Qed.

Lemma json_dumps_printable :
  forall v : pyval, all_printable (json_dumps v) = true.
Proof.
  fix IH 1. intros [| [|] | z | s | l | items].
  - reflexivity.
  - reflexivity.
  - reflexivity.
  - apply all_printable_str_int.
  - apply encode_basestring_printable.
  - change (all_printable
              (py "[" ++ join (py ", ") (map json_dumps l) ++ py "]")
            = true).
    apply all_printable_app; [reflexivity|].
    apply all_printable_app; [|reflexivity].
    apply join_printable; [reflexivity|].
    induction l as [|x l IHl]; simpl; constructor; [apply IH | exact IHl].
  - change (all_printable
              (py "{"
                 ++ join (py ", ")
                      (map (fun kv => encode_basestring_ascii (fst kv)
                                        ++ py ": " ++ json_dumps (snd kv))
                           items)
                 ++ py "}")
            = true).
    apply all_printable_app; [reflexivity|].
    apply all_printable_app; [|reflexivity].
    apply join_printable; [reflexivity|].
    induction items as [|[k x] items IHl]; simpl map; constructor;
      [|exact IHl].
    change (all_printable (encode_basestring_ascii k ++ py ": "
                             ++ json_dumps x) = true).
    apply all_printable_app; [apply encode_basestring_printable|].
    apply all_printable_app; [reflexivity | apply IH].
Qed.

(** X13: the body [send] puts on the wire is one line of printable ASCII
    (code points 32 to 126), whatever control or non-ASCII characters
    the event, the payload or the log-stream name hold: no line feed and
    no carriage return ever reaches the request. *)
Theorem body_is_one_printable_line (w : World) (event : dict)
    (context : Context) (st data phys ne reason : pyval) (t : trace) :
  has_fields callback_fields event = true ->
  exists req r,
    snd (send w event context st data phys ne reason t)
      = t ++ [IoRequest req r]
    /\ (forall c, In c (body req) -> (32 <= c <= 126)%N)
    /\ ~ In 10%N (body req)
    /\ ~ In 13%N (body req).
Proof.
  intros H.
  exists (put_request event (report event context st data phys ne reason)),
         (http_request w t
            (put_request event
               (report event context st data phys ne reason))).
  split; [now rewrite send_run by assumption|].
  assert (forall c,
             In c (json_dumps
                     (PDict (report event context st data phys ne reason)))
             -> (32 <= c <= 126)%N) as Hp.
  { intros c Hc.
    pose proof (json_dumps_printable
                  (PDict (report event context st data phys ne reason)))
      as Hall.
    unfold all_printable in Hall. rewrite forallb_forall in Hall.
    specialize (Hall c Hc). unfold printable in Hall.
    apply andb_prop in Hall as [H1 H2].
    apply N.leb_le in H1. apply N.leb_le in H2. lia. }
  split; [exact Hp|].
  split; intros Hin; apply Hp in Hin; lia.
Qed.

(** ** Every payload is earned *)

Lemma payload_of_cases (p : exit_path) :
  (payload_of p = payload "200" "success" ->
   p = NonCreate \/ exists b, p = BuildSucceeded b)
  /\ (payload_of p = payload "500" "build_failed" ->
      exists b s, p = BuildFailed b s)
  /\ (payload_of p = payload "500" "timeout" ->
      (exists b, p = TimeoutImminent b) \/ exists b, p = BudgetExhausted b)
  /\ (payload_of p = payload "500" "error" -> exists e, p = Caught e).
Proof.
  destruct p; simpl payload_of; repeat split; intros H;
    try (vm_compute in H; discriminate H); eauto.
Qed.

(** How a poll trace ends, for each way out of the loop. *)
Lemma poll_trace_end (build_id : pystr) (elapsed_time : Z) (tr : trace)
    (p : exit_path) :
  poll_trace build_id elapsed_time tr p ->
  match p with
  | NonCreate => False
  | BuildSucceeded _ =>
      exists pre ms out b rest,
        tr = pre ++ [IoRemaining (Ok ms);
                     IoBatchGetBuilds [build_id] (Ok out)]
        /\ builds out = b :: rest /\ buildStatus b = py "SUCCEEDED"
  | BuildFailed _ s =>
      exists pre ms out b rest,
        tr = pre ++ [IoRemaining (Ok ms);
                     IoBatchGetBuilds [build_id] (Ok out)]
        /\ builds out = b :: rest /\ buildStatus b = s
        /\ In s terminal_failures
  | TimeoutImminent _ =>
      exists pre ms, tr = pre ++ [IoRemaining (Ok ms)] /\ (ms < 60000)%Z
  | BudgetExhausted _ =>
      tr = [] \/ exists pre, tr = pre ++ [IoSleep wait_interval]
  | Caught e =>
      exists pre x,
        tr = pre ++ [x]
        /\ (raised x = Some e
            \/ (e = IndexError
                /\ exists ids out,
                     x = IoBatchGetBuilds ids (Ok out) /\ builds out = []))
  end.
Proof.
  induction 1.
  - now left.
  - exists [], (IoRemaining (Raise e)). auto.
  - exists [], ms. auto.
  - exists [IoRemaining (Ok ms)], (IoBatchGetBuilds [build_id] (Raise e)).
    auto.
  - exists [IoRemaining (Ok ms)], (IoBatchGetBuilds [build_id] (Ok out)).
    split; [reflexivity|]. right. eauto.
  - exists [], ms, out, b, rest. auto.
  - exists [], ms, out, b, rest. auto.
  - set (it := [IoRemaining (Ok ms); IoBatchGetBuilds [build_id] (Ok out);
                IoSleep wait_interval]).
    change (IoRemaining (Ok ms) :: IoBatchGetBuilds [build_id] (Ok out)
              :: IoSleep wait_interval :: tr) with (it ++ tr).
    destruct p.
    + destruct IHpoll_trace.
    + destruct IHpoll_trace as (pre & ms' & out' & b' & rest' & -> & Hr).
      exists (it ++ pre), ms', out', b', rest'.
      now rewrite <- app_assoc.
    + destruct IHpoll_trace as (pre & ms' & out' & b' & rest' & -> & Hr).
      exists (it ++ pre), ms', out', b', rest'.
      now rewrite <- app_assoc.
    + destruct IHpoll_trace as (pre & ms' & -> & Hr).
      exists (it ++ pre), ms'. now rewrite <- app_assoc.
    + right. destruct IHpoll_trace as [->|(pre & ->)].
      * exists [IoRemaining (Ok ms); IoBatchGetBuilds [build_id] (Ok out)].
        reflexivity.
      * exists (it ++ pre). now rewrite <- app_assoc.
    + destruct IHpoll_trace as (pre & x & -> & Hr).
      exists (it ++ pre), x. now rewrite <- app_assoc.
Qed.

Lemma snoc_snoc (A : Type) (a b : list A) (x y : A) :
  (a ++ [x]) ++ [y] = a ++ [x; y].
Proof. now rewrite <- app_assoc. Qed.

(** X14: on a create event success is reported only for a build that
    succeeded: when the handler returns the success payload, the last
    thing before the callback was a status query that answered
    SUCCEEDED. *)
Theorem success_is_earned (w : World) (event : dict) (context : Context) :
  has_fields required_fields event = true ->
  field event "RequestType" = PStr (py "Create") ->
  let run := lambda_handler w event context [] in
  fst run = Ok (payload "200" "success") ->
  exists pre ids out b rest req r,
    snd run = pre ++ [IoBatchGetBuilds ids (Ok out); IoRequest req r]
    /\ builds out = b :: rest
    /\ buildStatus b = py "SUCCEEDED".
Proof.
  intros Hreq Hty run Hok.
  destruct (run_shape w event context Hreq)
    as (base & p & r0 & Hbase & Hfst & Hsnd).
  fold run in Hfst, Hsnd. rewrite Hfst in Hok. injection Hok as Hok.
  apply payload_of_cases in Hok as [->|[b ->]].
  - inversion Hbase as [Hf| | | |name response tr p' _ _ Hpoll]; subst.
    + apply eq_str_true in Hty. congruence.
    + destruct (poll_trace_end _ _ _ _ Hpoll).
  - inversion Hbase as [| | | |name response tr p' _ _ Hpoll]; subst.
    destruct (poll_trace_end _ _ _ _ Hpoll)
      as (pre & ms & out & bd & rest & -> & Hb & Hs).
    exists (IoClient (py "codebuild") (Ok tt)
              :: IoStartBuild name (Ok response)
              :: pre ++ [IoRemaining (Ok ms)]),
           [id (build response)], out, bd, rest,
           (callback_of event context (BuildSucceeded b)), r0.
    split; [|auto]. rewrite Hsnd. simpl. rewrite <- !app_assoc.
    reflexivity.
Qed.

(** X15: the build_failed payload is returned only when the last thing
    before the callback was a status query that answered FAILED, FAULT,
    STOPPED or TIMED_OUT. *)
Theorem build_failed_is_earned (w : World) (event : dict)
    (context : Context) :
  has_fields required_fields event = true ->
  let run := lambda_handler w event context [] in
  fst run = Ok (payload "500" "build_failed") ->
  exists pre ids out b rest req r,
    snd run = pre ++ [IoBatchGetBuilds ids (Ok out); IoRequest req r]
    /\ builds out = b :: rest
    /\ In (buildStatus b) terminal_failures.
Proof.
  intros Hreq run Hok.
  destruct (run_shape w event context Hreq)
    as (base & p & r0 & Hbase & Hfst & Hsnd).
  fold run in Hfst, Hsnd. rewrite Hfst in Hok. injection Hok as Hok.
  apply payload_of_cases in Hok as (b & s & ->).
  inversion Hbase as [| | | |name response tr p' _ _ Hpoll]; subst.
  destruct (poll_trace_end _ _ _ _ Hpoll)
    as (pre & ms & out & bd & rest & -> & Hb & <- & Hs).
  exists (IoClient (py "codebuild") (Ok tt)
            :: IoStartBuild name (Ok response)
            :: pre ++ [IoRemaining (Ok ms)]),
         [id (build response)], out, bd, rest,
         (callback_of event context (BuildFailed b (buildStatus bd))), r0.
  split; [|auto]. rewrite Hsnd. simpl. rewrite <- !app_assoc.
  reflexivity.
Qed.

(** X16: the timeout payload is returned only when time ran out: the
    last thing before the callback was either a remaining-time check
    that found less than 60 seconds, or the thirtieth sleep. *)
Theorem timeout_is_earned (w : World) (event : dict) (context : Context) :
  has_fields required_fields event = true ->
  let run := lambda_handler w event context [] in
  fst run = Ok (payload "500" "timeout") ->
  exists pre x req r,
    snd run = pre ++ [x; IoRequest req r]
    /\ ((exists ms, x = IoRemaining (Ok ms) /\ (ms < 60000)%Z)
        \/ (x = IoSleep 30 /\ count is_sleep (snd run) = 30%nat)).
Proof.
  intros Hreq run Hok.
  destruct (run_shape w event context Hreq)
    as (base & p & r0 & Hbase & Hfst & Hsnd).
  fold run in Hfst, Hsnd. rewrite Hfst in Hok. injection Hok as Hok.
  apply payload_of_cases in Hok as [[b ->]|[b ->]];
    inversion Hbase as [| | | |name response tr p' _ _ Hpoll]; subst.
  - destruct (poll_trace_end _ _ _ _ Hpoll) as (pre & ms & -> & Hms).
    exists (IoClient (py "codebuild") (Ok tt)
              :: IoStartBuild name (Ok response) :: pre),
           (IoRemaining (Ok ms)),
           (callback_of event context (TimeoutImminent b)), r0.
    split; [|left; eauto]. rewrite Hsnd. simpl. rewrite <- !app_assoc.
    reflexivity.
  - destruct (poll_trace_budget _ _ _ _ Hpoll)
      as [(_ & Hs & Hlast)|(Hp & _)];
      [exists 0%Z; lia | lia | | now destruct (Hp b)].
    destruct Hlast as [->|(pre & ->)]; [discriminate|].
    exists (IoClient (py "codebuild") (Ok tt)
              :: IoStartBuild name (Ok response) :: pre),
           (IoSleep 30),
           (callback_of event context (BudgetExhausted b)), r0.
    split.
    + rewrite Hsnd. simpl. rewrite <- !app_assoc. reflexivity.
    + right. split; [reflexivity|]. rewrite Hsnd. count_events.
      revert Hs. count_events. lia.
Qed.

(** X17: the error payload is returned only after something went wrong
    in the try block: the last thing before the callback was a call that
    raised, or the client was made and PROJECT_NAME is not set, or a
    status answer held no build. *)
Theorem error_is_earned (w : World) (event : dict) (context : Context) :
  has_fields required_fields event = true ->
  let run := lambda_handler w event context [] in
  fst run = Ok (payload "500" "error") ->
  exists pre x req r,
    snd run = pre ++ [x; IoRequest req r]
    /\ ((exists e, raised x = Some e)
        \/ (x = IoClient (py "codebuild") (Ok tt)
            /\ environ w (py "PROJECT_NAME") = None)
        \/ (exists ids out,
              x = IoBatchGetBuilds ids (Ok out) /\ builds out = [])).
Proof.
  intros Hreq run Hok.
  destruct (run_shape w event context Hreq)
    as (base & p & r0 & Hbase & Hfst & Hsnd).
  fold run in Hfst, Hsnd. rewrite Hfst in Hok. injection Hok as Hok.
  apply payload_of_cases in Hok as [e ->].
  rewrite Hsnd.
  inversion Hbase as [|e' Hty|Hty Henv|name e' Hty Henv
                      |name response tr p' Hty Henv Hpoll]; subst.
  - exists [], (IoClient (py "codebuild") (Raise e)),
           (callback_of event context (Caught e)), r0.
    split; [reflexivity|]. left. exists e. reflexivity.
  - exists [], (IoClient (py "codebuild") (Ok tt)),
           (callback_of event context
              (Caught (KeyError (py "PROJECT_NAME")))), r0.
    split; [reflexivity|]. right. left. auto.
  - exists [IoClient (py "codebuild") (Ok tt)],
           (IoStartBuild name (Raise e)),
           (callback_of event context (Caught e)), r0.
    split; [reflexivity|]. left. exists e. reflexivity.
  - destruct (poll_trace_end _ _ _ _ Hpoll) as (pre & x & -> & Hx).
    exists (IoClient (py "codebuild") (Ok tt)
              :: IoStartBuild name (Ok response) :: pre),
           x, (callback_of event context (Caught e)), r0.
    split; [simpl; rewrite <- !app_assoc; reflexivity|].
    destruct Hx as [Hx|(_ & ids & out & -> & Hb)].
    + left. eauto.
    + right. right. eauto.
Qed.

(** ** These properties at work on concrete runs *)

Lemma poll_loop_is_bounded_witness :
  has_fields required_fields (sample_event "Create") = true
  /\ (count is_status_query
        (snd (lambda_handler (stuck_in "IN_PROGRESS") (sample_event "Create")
                             (sample_context 840000) []))
      <= 30)%nat.
Proof.
  assert (has_fields required_fields (sample_event "Create") = true) as H1
    by reflexivity.
  split; [exact H1|].
  destruct (poll_loop_is_bounded
              (stuck_in "IN_PROGRESS") (sample_event "Create")
              (sample_context 840000) H1)
    as (Hc & _ & Hq & _).
  exact (Nat.le_trans _ _ _ Hq Hc).
Defined.

Lemma gives_up_after_thirtieth_sleep_witness :
  has_fields required_fields (sample_event "Create") = true
  /\ fst (lambda_handler (stuck_in "IN_PROGRESS") (sample_event "Create")
                         (sample_context 840000) [])
     = Ok (text "{ 'status': 500, 'message': 'timeout' }").
Proof.
  assert (has_fields required_fields (sample_event "Create") = true) as H1
    by reflexivity.
  split; [exact H1|].
  destruct (gives_up_after_thirtieth_sleep
              (stuck_in "IN_PROGRESS") (sample_event "Create")
              (sample_context 840000) H1)
    as (_ & Hgive).
  apply Hgive. vm_compute. reflexivity.
Defined.

Lemma build_triggered_once_witness :
  has_fields required_fields (sample_event "Create") = true
  /\ environ (healthy ["SUCCEEDED"]%string) (py "PROJECT_NAME")
     = Some (py "mirror").
Proof.
  assert (has_fields required_fields (sample_event "Create") = true) as H1
    by reflexivity.
  split; [exact H1|].
  destruct (build_triggered_once
              (healthy ["SUCCEEDED"]%string) (sample_event "Create")
              (sample_context 840000) H1)
    as (_ & Hstart & _).
  apply (Hstart [IoClient (py "codebuild") (Ok tt)] (py "mirror") started
                (skipn 2 (snd (lambda_handler
                                 (healthy ["SUCCEEDED"]%string)
                                 (sample_event "Create")
                                 (sample_context 840000) [])))).
  vm_compute. reflexivity.
Defined.

Lemma queries_ask_for_started_build_witness :
  has_fields required_fields (sample_event "Create") = true
  /\ exists name response pre',
       [IoClient (py "codebuild") (Ok tt);
        IoStartBuild (py "mirror") started; IoRemaining (Ok 840000%Z)]
       = IoClient (py "codebuild") (Ok tt)
           :: IoStartBuild name (Ok response) :: pre'
       /\ [py "mirror:b1"] = [id (build response)].
Proof.
  assert (has_fields required_fields (sample_event "Create") = true) as H1
    by reflexivity.
  split; [exact H1|].
  destruct (queries_ask_for_started_build
              (healthy ["SUCCEEDED"]%string) (sample_event "Create")
              (sample_context 840000) H1)
    as (_ & Hq).
  apply (Hq [IoClient (py "codebuild") (Ok tt);
             IoStartBuild (py "mirror") started; IoRemaining (Ok 840000%Z)]
            [py "mirror:b1"]
            (Ok {| builds := [sample_build "SUCCEEDED"] |})
            (skipn 4 (snd (lambda_handler
                             (healthy ["SUCCEEDED"]%string)
                             (sample_event "Create")
                             (sample_context 840000) [])))).
  vm_compute. reflexivity.
Defined.

(** Exactly 60 seconds are left: the handler polls. *)
Lemma enough_time_left_polls_witness :
  has_fields required_fields (sample_event "Create") = true
  /\ (60000 <= 60000)%Z
  /\ exists name response r post',
       In (IoStartBuild name (Ok response))
          [IoClient (py "codebuild") (Ok tt);
           IoStartBuild (py "mirror") started]
       /\ skipn 3 (snd (lambda_handler
                          (healthy ["SUCCEEDED"]%string)
                          (sample_event "Create")
                          (sample_context 60000) []))
          = IoBatchGetBuilds [id (build response)] r :: post'.
Proof.
  assert (has_fields required_fields (sample_event "Create") = true) as H1
    by reflexivity.
  assert (60000 <= 60000)%Z as H2 by lia.
  split; [exact H1|]. split; [exact H2|].
  apply (enough_time_left_polls
           (healthy ["SUCCEEDED"]%string) (sample_event "Create")
           (sample_context 60000) H1
           [IoClient (py "codebuild") (Ok tt);
            IoStartBuild (py "mirror") started]
           60000%Z
           (skipn 3 (snd (lambda_handler
                            (healthy ["SUCCEEDED"]%string)
                            (sample_event "Create")
                            (sample_context 60000) [])))).
  - vm_compute. reflexivity.
  - exact H2.
Defined.

(** A status in lower case is no terminal status. *)
Lemma other_status_keeps_waiting_witness :
  has_fields required_fields (sample_event "Create") = true
  /\ buildStatus (sample_build "succeeded") <> py "SUCCEEDED"
  /\ ~ In (buildStatus (sample_build "succeeded")) terminal_failures
  /\ exists post',
       skipn 4 (snd (lambda_handler
                       (healthy ["succeeded"; "SUCCEEDED"]%string)
                       (sample_event "Create")
                       (sample_context 840000) []))
       = IoSleep 30 :: post'.
Proof.
  assert (has_fields required_fields (sample_event "Create") = true) as H1
    by reflexivity.
  assert (buildStatus (sample_build "succeeded") <> py "SUCCEEDED") as H2
    by (vm_compute; discriminate).
  assert (~ In (buildStatus (sample_build "succeeded")) terminal_failures)
    as H3.
  { vm_compute. intros [H|[H|[H|[H|[]]]]]; discriminate H. }
  split; [exact H1|]. split; [exact H2|]. split; [exact H3|].
  apply (other_status_keeps_waiting
           (healthy ["succeeded"; "SUCCEEDED"]%string)
           (sample_event "Create") (sample_context 840000) H1
           [IoClient (py "codebuild") (Ok tt);
            IoStartBuild (py "mirror") started; IoRemaining (Ok 840000%Z)]
           [py "mirror:b1"]
           {| builds := [sample_build "succeeded"] |}
           (skipn 4 (snd (lambda_handler
                            (healthy ["succeeded"; "SUCCEEDED"]%string)
                            (sample_event "Create")
                            (sample_context 840000) [])))
           (sample_build "succeeded") []).
  - vm_compute. reflexivity.
  - reflexivity.
  - exact H2.
  - exact H3.
Defined.

Lemma exception_ends_the_run_witness :
  has_fields required_fields (sample_event "Create") = true
  /\ exists r,
       skipn 2 (snd (lambda_handler
                       (sample_world (Raise boom) [] (Ok 200%Z))
                       (sample_event "Create") (sample_context 840000) []))
       = [IoRequest
            (put_request (sample_event "Create")
               (message_report (sample_event "Create")
                               (sample_context 840000) "FAILED"
                               (py "Error: AccessDenied")))
            r].
Proof.
  assert (has_fields required_fields (sample_event "Create") = true) as H1
    by reflexivity.
  split; [exact H1|].
  destruct (exception_ends_the_run
              (sample_world (Raise boom) [] (Ok 200%Z))
              (sample_event "Create") (sample_context 840000) H1
              [IoClient (py "codebuild") (Ok tt)]
              (IoStartBuild (py "mirror") (Raise boom)) boom
              (skipn 2 (snd (lambda_handler
                               (sample_world (Raise boom) [] (Ok 200%Z))
                               (sample_event "Create")
                               (sample_context 840000) [])))
              ltac:(vm_compute; reflexivity) eq_refl)
    as (r & Hpost & _).
  exists r. exact Hpost.
Defined.

(** The endpoint answers 200 in one world and 500 in the other. *)
Lemma endpoint_answer_is_ignored_witness :
  same_services (healthy []) rejecting
  /\ has_fields required_fields (sample_event "Update") = true
  /\ fst (lambda_handler (healthy []) (sample_event "Update")
                         (sample_context 840000) [])
     = fst (lambda_handler rejecting (sample_event "Update")
                           (sample_context 840000) []).
Proof.
  assert (same_services (healthy []) rejecting) as H0
    by (repeat split; reflexivity).
  assert (has_fields required_fields (sample_event "Update") = true) as H1
    by reflexivity.
  split; [exact H0|]. split; [exact H1|].
  destruct (endpoint_answer_is_ignored
              (healthy []) rejecting (sample_event "Update")
              (sample_context 840000) H0 H1)
    as (pre & req & Hfst & _).
  exact Hfst.
Defined.

Lemma send_raises_on_missing_field_witness :
  first_missing callback_fields (no_url_event "Create")
  = Some (py "ResponseURL")
  /\ send (healthy []) (no_url_event "Create") (sample_context 840000)
          (PStr (py "FAILED")) sample_data PNone (PBool false) PNone []
     = (Raise (KeyError (py "ResponseURL")), []).
Proof.
  assert (first_missing callback_fields (no_url_event "Create")
          = Some (py "ResponseURL")) as H1 by reflexivity.
  split; [exact H1|].
  apply (send_raises_on_missing_field
           (healthy []) (no_url_event "Create") (sample_context 840000)
           (PStr (py "FAILED")) sample_data PNone (PBool false) PNone []
           (py "ResponseURL") H1).
Defined.

(** A create event without ResponseURL: the build is started and polled,
    but the KeyError leaves the handler and nothing is reported. *)
Lemma handler_raises_without_required_field_witness :
  first_missing required_fields (no_url_event "Create")
  = Some (py "ResponseURL")
  /\ fst (lambda_handler (healthy ["SUCCEEDED"]%string)
                         (no_url_event "Create") (sample_context 840000) [])
     = Raise (KeyError (py "ResponseURL"))
  /\ count is_request
       (snd (lambda_handler (healthy ["SUCCEEDED"]%string)
                            (no_url_event "Create")
                            (sample_context 840000) []))
     = 0%nat.
Proof.
  assert (first_missing required_fields (no_url_event "Create")
          = Some (py "ResponseURL")) as H1 by reflexivity.
  split; [exact H1|].
  destruct (handler_raises_without_required_field
              (healthy ["SUCCEEDED"]%string) (no_url_event "Create")
              (sample_context 840000))
    as (_ & Hraise).
  exact (Hraise (py "ResponseURL") H1).
Defined.

Lemma callback_agrees_with_payload_witness :
  has_fields required_fields (sample_event "Create") = true
  /\ exists pre status msg r,
       snd (lambda_handler (healthy ["FAILED"]%string)
                           (sample_event "Create")
                           (sample_context 840000) [])
       = pre ++ [IoRequest
                   (put_request (sample_event "Create")
                      (handler_report (sample_event "Create")
                                      (sample_context 840000) status msg))
                   r].
Proof.
  assert (has_fields required_fields (sample_event "Create") = true) as H1
    by reflexivity.
  split; [exact H1|].
  destruct (callback_agrees_with_payload
              (healthy ["FAILED"]%string) (sample_event "Create")
              (sample_context 840000) H1)
    as (pre & status & msg & r & Hsnd & _).
  exists pre, status, msg, r. exact Hsnd.
Defined.

(** A reason 0 is falsy, a physicalResourceId "mirror-1" is not. *)
Lemma report_follows_python_or_witness :
  has_fields callback_fields (sample_event "Create") = true
  /\ exists rep r,
       snd (send (healthy []) (sample_event "Create")
                 (sample_context 840000) (PStr (py "SUCCESS")) sample_data
                 (PStr (py "mirror-1")) (PBool false) (PInt 0) [])
         = [IoRequest (put_request (sample_event "Create") rep) r]
       /\ dict_get rep (py "Reason")
          = Some (PStr (py "See the details in CloudWatch Log Stream: "
                          ++ py "2026/stream"))
       /\ dict_get rep (py "PhysicalResourceId")
          = Some (PStr (py "mirror-1")).
Proof.
  assert (has_fields callback_fields (sample_event "Create") = true) as H1
    by reflexivity.
  split; [exact H1|].
  destruct (report_follows_python_or
              (healthy []) (sample_event "Create") (sample_context 840000)
              (PStr (py "SUCCESS")) sample_data (PStr (py "mirror-1"))
              (PBool false) (PInt 0) [] H1)
    as (rep & r & Hsnd & _ & Hreason & Hphys & _).
  exists rep, r. split; [exact Hsnd|]. split.
  - apply Hreason. reflexivity.
  - apply Hphys. reflexivity.
Defined.

(** The StackId holds a line feed; the body does not. *)
Lemma body_is_one_printable_line_witness :
  has_fields callback_fields unicode_event = true
  /\ exists req r,
       snd (send (healthy []) unicode_event (sample_context 840000)
                 (PStr (py "SUCCESS")) sample_data PNone (PBool false)
                 PNone [])
         = [IoRequest req r]
       /\ ~ In 10%N (body req).
Proof.
  assert (has_fields callback_fields unicode_event = true) as H1
    by reflexivity.
  split; [exact H1|].
  destruct (body_is_one_printable_line
              (healthy []) unicode_event (sample_context 840000)
              (PStr (py "SUCCESS")) sample_data PNone (PBool false) PNone []
              H1)
    as (req & r & Hsnd & _ & Hlf & _).
  exists req, r. split; [exact Hsnd | exact Hlf].
Defined.

Lemma success_is_earned_witness :
  has_fields required_fields (sample_event "Create") = true
  /\ field (sample_event "Create") "RequestType" = PStr (py "Create")
  /\ fst (lambda_handler (healthy ["IN_PROGRESS"; "SUCCEEDED"]%string)
                         (sample_event "Create") (sample_context 840000) [])
     = Ok (payload "200" "success")
  /\ exists pre ids out b rest req r,
       snd (lambda_handler (healthy ["IN_PROGRESS"; "SUCCEEDED"]%string)
                           (sample_event "Create")
                           (sample_context 840000) [])
       = pre ++ [IoBatchGetBuilds ids (Ok out); IoRequest req r]
       /\ builds out = b :: rest
       /\ buildStatus b = py "SUCCEEDED".
Proof.
  assert (has_fields required_fields (sample_event "Create") = true) as H1
    by reflexivity.
  assert (field (sample_event "Create") "RequestType" = PStr (py "Create"))
    as H2 by reflexivity.
  assert (fst (lambda_handler (healthy ["IN_PROGRESS"; "SUCCEEDED"]%string)
                              (sample_event "Create")
                              (sample_context 840000) [])
          = Ok (payload "200" "success")) as H3
    by (vm_compute; reflexivity).
  split; [exact H1|]. split; [exact H2|]. split; [exact H3|].
  exact (success_is_earned
           (healthy ["IN_PROGRESS"; "SUCCEEDED"]%string)
           (sample_event "Create") (sample_context 840000) H1 H2 H3).
Defined.

Lemma build_failed_is_earned_witness :
  has_fields required_fields (sample_event "Create") = true
  /\ fst (lambda_handler (healthy ["STOPPED"]%string)
                         (sample_event "Create") (sample_context 840000) [])
     = Ok (payload "500" "build_failed")
  /\ exists pre ids out b rest req r,
       snd (lambda_handler (healthy ["STOPPED"]%string)
                           (sample_event "Create")
                           (sample_context 840000) [])
       = pre ++ [IoBatchGetBuilds ids (Ok out); IoRequest req r]
       /\ builds out = b :: rest
       /\ In (buildStatus b) terminal_failures.
Proof.
  assert (has_fields required_fields (sample_event "Create") = true) as H1
    by reflexivity.
  assert (fst (lambda_handler (healthy ["STOPPED"]%string)
                              (sample_event "Create")
                              (sample_context 840000) [])
          = Ok (payload "500" "build_failed")) as H2
    by (vm_compute; reflexivity).
  split; [exact H1|]. split; [exact H2|].
  exact (build_failed_is_earned
           (healthy ["STOPPED"]%string)
           (sample_event "Create") (sample_context 840000) H1 H2).
Defined.

Lemma timeout_is_earned_witness :
  has_fields required_fields (sample_event "Create") = true
  /\ fst (lambda_handler (healthy []) (sample_event "Create")
                         (sample_context 59999) [])
     = Ok (payload "500" "timeout")
  /\ exists pre x req r,
       snd (lambda_handler (healthy []) (sample_event "Create")
                           (sample_context 59999) [])
       = pre ++ [x; IoRequest req r].
Proof.
  assert (has_fields required_fields (sample_event "Create") = true) as H1
    by reflexivity.
  assert (fst (lambda_handler (healthy []) (sample_event "Create")
                              (sample_context 59999) [])
          = Ok (payload "500" "timeout")) as H2
    by (vm_compute; reflexivity).
  split; [exact H1|]. split; [exact H2|].
  destruct (timeout_is_earned
              (healthy []) (sample_event "Create") (sample_context 59999)
              H1 H2)
    as (pre & x & req & r & Hsnd & _).
  exists pre, x, req, r. exact Hsnd.
Defined.

Lemma error_is_earned_witness :
  has_fields required_fields (sample_event "Create") = true
  /\ fst (lambda_handler (sample_world (Raise boom) [] (Ok 200%Z))
                         (sample_event "Create") (sample_context 840000) [])
     = Ok (payload "500" "error")
  /\ exists pre x req r,
       snd (lambda_handler (sample_world (Raise boom) [] (Ok 200%Z))
                           (sample_event "Create")
                           (sample_context 840000) [])
       = pre ++ [x; IoRequest req r].
Proof.
  assert (has_fields required_fields (sample_event "Create") = true) as H1
    by reflexivity.
  assert (fst (lambda_handler (sample_world (Raise boom) [] (Ok 200%Z))
                              (sample_event "Create")
                              (sample_context 840000) [])
          = Ok (payload "500" "error")) as H2
    by (vm_compute; reflexivity).
  split; [exact H1|]. split; [exact H2|].
  destruct (error_is_earned
              (sample_world (Raise boom) [] (Ok 200%Z))
              (sample_event "Create") (sample_context 840000) H1 H2)
    as (pre & x & req & r & Hsnd & _).
  exists pre, x, req, r. exact Hsnd.
Defined.
